(** * gdtoolkit formatter: comment re-attachment, region spacing and the
      class-statement dispatcher

    A shallow embedding of [gdtoolkit/formatter/formatter.py] and
    [gdtoolkit/formatter/class_statement.py], with the properties the
    specification states about them.

    Conventions of the embedding:
    - a Python [str] is a [string]; each [ascii] stands for one code point
      below 256;
    - a source line number is a [nat] (lark numbers lines from 1);
    - [FormattedLines] is a list of pairs [(Optional[int], str)];
    - a Python list that is only appended to and popped at its end is a
      Rocq list whose last element is the end of the Python list;
    - a [for] loop over a list is a [fold_left] (or a structural recursion)
      threading the local variables the loop assigns. *)

From Stdlib Require Import List String Ascii Arith Lia Bool.
Import ListNotations.

Open Scope string_scope.
Open Scope list_scope.
Open Scope nat_scope.

(** ** Python built-ins used by the formatter *)

Module Py.

(** [str.isspace] on one code point below 256. *)
Definition isspace (c : ascii) : bool :=
  let n := nat_of_ascii c in
  (((9 <=? n) && (n <=? 13)) || ((28 <=? n) && (n <=? 32))
   || (n =? 133) || (n =? 160))%nat.

(** [s.lstrip()] *)
Fixpoint lstrip (s : string) : string :=
  match s with
  | EmptyString => EmptyString
  | String c s' => if isspace c then lstrip s' else s
  end.

(** [s.rstrip()] *)
Fixpoint rstrip (s : string) : string :=
  match s with
  | EmptyString => EmptyString
  | String c s' =>
      match rstrip s' with
      | EmptyString => if isspace c then EmptyString else String c EmptyString
      | t => String c t
      end
  end.

(** [s.strip()] *)
Definition strip (s : string) : string := rstrip (lstrip s).

(** [s.startswith(p)] *)
Fixpoint startswith (s p : string) {struct p} : bool :=
  match p with
  | EmptyString => true
  | String a p' =>
      match s with
      | EmptyString => false
      | String b s' => Ascii.eqb a b && startswith s' p'
      end
  end.

(** [sep.join(l)] *)
Definition join (sep : string) (l : list string) : string :=
  String.concat sep l.

(** [s * n] *)
Fixpoint mul (s : string) (n : nat) : string :=
  match n with
  | O => EmptyString
  | S n' => (s ++ mul s n')%string
  end.

Section Slices.
Context {A : Type}.

(** [l[n:]] for [n >= 0] *)
Definition slice_from (n : nat) (l : list A) : list A := skipn n l.

(** [l[:n]] for [n >= 0] *)
Definition slice_to (n : nat) (l : list A) : list A := firstn n l.

(** [l[n:m]] for [n >= 0] and [m] a non-negative int or [None] *)
Definition slice (n : nat) (m : option nat) (l : list A) : list A :=
  match m with
  | None => skipn n l
  | Some m' => firstn (m' - n) (skipn n l)
  end.

(** [while l and p(l[-1]): l.pop()] *)
Fixpoint pop_while (p : A -> bool) (l : list A) : list A :=
  match l with
  | [] => []
  | x :: l' =>
      match pop_while p l' with
      | [] => if p x then [] else [x]
      | t => x :: t
      end
  end.
End Slices.

(** [[c for c in comments if c is not None]] *)
Fixpoint not_none {A : Type} (l : list (option A)) : list A :=
  match l with
  | [] => []
  | None :: l' => not_none l'
  | Some x :: l' => x :: not_none l'
  end.

End Py.

(** ** [formatter/types.py] *)

Definition FormattedLine : Type := option nat * string.
Definition FormattedLines : Type := list FormattedLine.

(** A comment table: slot [n] holds the comment of source line [n]. *)
Definition Comments : Type := list (option string).

(** [Outcome]: the rendered lines and the last source line consumed. *)
Definition Outcome : Type := FormattedLines * nat.

(** ** Exceptions *)

Inductive Exception : Type :=
| KeyError (key : string)
| IndexError
| AttributeError
| UnboundLocalError
| RecursionError
| OtherError (message : string).

Inductive Result (A : Type) : Type :=
| Ok (a : A)
| Raise (e : Exception).

Arguments Ok {A} a.
Arguments Raise {A} e.

Definition bind {A B : Type} (r : Result A) (k : A -> Result B) : Result B :=
  match r with
  | Ok a => k a
  | Raise e => Raise e
  end.

Declare Scope result_scope.
Delimit Scope result_scope with result.
Notation "x <- e ;; k" := (bind e (fun x => k))
  (at level 61, e at next level, right associativity) : result_scope.
Notation "' p <- e ;; k" := (bind e (fun x => match x with p => k end))
  (at level 61, p pattern, e at next level, right associativity) : result_scope.

Open Scope result_scope.
Open Scope nat_scope.

(** [[f(x) for x in l]] where [f] may raise *)
Fixpoint mapM {A B : Type} (f : A -> Result B) (l : list A) : Result (list B) :=
  match l with
  | [] => Ok []
  | x :: l' => y <- f x ;; ys <- mapM f l' ;; Ok (y :: ys)
  end.

(** ** lark parse trees *)

(** A [Tree] carries its kind tag, its children and its line span; a
    [Token] its type and value.  Children are trees or tokens. *)
#[warnings="-register-all"] Inductive Node : Type :=
| Token (type_ : string) (value : string)
| Tree (data : string) (children : list Node) (line end_line : nat).

Module Lark.

Definition data (n : Node) : Result string :=
  match n with
  | Tree d _ _ _ => Ok d
  | Token _ _ => Raise AttributeError
  end.

Definition children (n : Node) : Result (list Node) :=
  match n with
  | Tree _ cs _ _ => Ok cs
  | Token _ _ => Raise AttributeError
  end.

Definition line (n : Node) : Result nat :=
  match n with
  | Tree _ _ l _ => Ok l
  | Token _ _ => Raise AttributeError
  end.

Definition end_line (n : Node) : Result nat :=
  match n with
  | Tree _ _ _ l => Ok l
  | Token _ _ => Raise AttributeError
  end.

Definition value (n : Node) : Result string :=
  match n with
  | Token _ v => Ok v
  | Tree _ _ _ _ => Raise AttributeError
  end.

End Lark.

(** [l[i]] for [i >= 0] *)
Definition index {A : Type} (l : list A) (i : nat) : Result A :=
  match nth_error l i with
  | Some x => Ok x
  | None => Raise IndexError
  end.

(** [l[-1]] *)
Definition index_last {A : Type} (l : list A) : Result A :=
  match rev l with
  | x :: _ => Ok x
  | [] => Raise IndexError
  end.

(** [d[k]] on a dict literal, given as its list of items; the keys of
    the literal are distinct. *)
Fixpoint dict_get {V : Type} (d : list (string * V)) (k : string) : option V :=
  match d with
  | [] => None
  | (k', v) :: d' => if String.eqb k' k then Some v else dict_get d' k
  end.

(** ** [formatter/class_statement.py] *)

Section ClassStatement.

(** The [Context] class of [formatter/context.py]. *)
Variable Context : Type.
Variable indent_string : Context -> string.
Variable create_child_context : Context -> nat -> Context.

(** The [ExpressionContext] class of [formatter/context.py] and its
    constructor, called with a prefix, the line of the prefix, a suffix
    and the line of the suffix. *)
Variable ExpressionContext : Type.
Variable mkExpressionContext :
  string -> nat -> string -> nat -> ExpressionContext.

Definition Handler : Type := Node -> Context -> Result Outcome.

(** The collaborators imported by the module.  The last argument of
    [format_block] is its optional blank-lines table, [None] when the
    caller omits it. *)
Variable EmptyLinesTable : Type.
Variable format_block :
  list Node -> Handler -> Context -> option EmptyLinesTable -> Result Outcome.
Variable format_func_statement : Handler.
Variable format_simple_statement : string -> Node -> Context -> Result Outcome.
Variable format_var_statement : Handler.
Variable expression_to_str : Node -> Result string.
Variable format_expression :
  Node -> ExpressionContext -> Context -> Result Outcome.
Variable format_concrete_expression :
  Node -> ExpressionContext -> Context -> Result Outcome.

(** [format_class_statement] is the argument [self] below: the handlers
    reach the dispatcher through its global name. *)

Definition _format_child_and_prepend_to_outcome (self : Handler)
    (statement : Node) (context : Context) (prefix : string) : Result Outcome :=
  cs <- Lark.children statement ;;
  child <- index cs 0 ;;
  '(lines, last_processed_line) <- self child context ;;
  '(first_line_no, first_line) <- index lines 0 ;;
  Ok ((first_line_no,
       (indent_string context ++ prefix ++ Py.strip first_line)%string)
        :: Py.slice_from 1 lines,
      last_processed_line).

Definition _format_const_statement (statement : Node) (context : Context)
  : Result Outcome :=
  cs <- Lark.children statement ;;
  prefix <-
    (if Nat.eqb (List.length cs) 4 then
       c1 <- index cs 1 ;; name <- Lark.value c1 ;;
       Ok ("const " ++ name ++ " = ")%string
     else if Nat.eqb (List.length cs) 5 then
       c1 <- index cs 1 ;; name <- Lark.value c1 ;;
       Ok ("const " ++ name ++ " := ")%string
     else if Nat.eqb (List.length cs) 6 then
       c1 <- index cs 1 ;; name <- Lark.value c1 ;;
       c3 <- index cs 3 ;; type_name <- Lark.value c3 ;;
       Ok ("const " ++ name ++ ": " ++ type_name ++ " = ")%string
     else Raise UnboundLocalError) ;;
  ln <- Lark.line statement ;;
  eln <- Lark.end_line statement ;;
  let expression_context := mkExpressionContext prefix ln "" eln in
  e <- index_last cs ;;
  format_expression e expression_context context.

Definition _format_signal_statement (statement : Node) (context : Context)
  : Result Outcome :=
  cs <- Lark.children statement ;;
  no_args <-
    (if Nat.eqb (List.length cs) 1 then Ok true
     else c1 <- index cs 1 ;; cs1 <- Lark.children c1 ;;
          Ok (Nat.eqb (List.length cs1) 0)) ;;
  if (no_args : bool) then
    c0 <- index cs 0 ;; name <- Lark.value c0 ;;
    format_simple_statement ("signal " ++ name)%string statement context
  else
    c0 <- index cs 0 ;; name <- Lark.value c0 ;;
    ln <- Lark.line statement ;;
    eln <- Lark.end_line statement ;;
    let expression_context :=
      mkExpressionContext ("signal " ++ name)%string ln "" eln in
    signal_args <- index_last cs ;;
    format_concrete_expression signal_args expression_context context.

Definition _format_classname_statement (statement : Node) (context : Context)
  : Result Outcome :=
  last_processed_line_no <- Lark.line statement ;;
  cs <- Lark.children statement ;;
  c0 <- index cs 0 ;; name <- Lark.value c0 ;;
  let formatted_lines : FormattedLines :=
    [(Some last_processed_line_no,
      (indent_string context ++ "class_name " ++ name)%string)] in
  Ok (formatted_lines, last_processed_line_no).

Definition _format_extends_statement (statement : Node) (context : Context)
  : Result Outcome :=
  last_processed_line_no <- Lark.line statement ;;
  cs <- Lark.children statement ;;
  optional_attributes <-
    (if Nat.eqb (List.length cs) 1 then Ok ""
     else strs <- mapM expression_to_str (Py.slice_from 1 cs) ;;
          Ok ("." ++ Py.join "." strs)%string) ;;
  c0 <- index cs 0 ;; extendee <- expression_to_str c0 ;;
  let formatted_lines : FormattedLines :=
    [(Some last_processed_line_no,
      (indent_string context ++ "extends " ++ extendee
       ++ optional_attributes)%string)] in
  Ok (formatted_lines, last_processed_line_no).

Definition _format_classname_extends_statement (statement : Node)
    (context : Context) : Result Outcome :=
  last_processed_line_no <- Lark.line statement ;;
  let extendee_pos := 2 + 1 in
  cs <- Lark.children statement ;;
  optional_attributes <-
    (if Nat.leb (List.length cs) (extendee_pos + 1) then Ok ""
     else strs <- mapM expression_to_str
                    (Py.slice_from (extendee_pos + 1) cs) ;;
          Ok ("." ++ Py.join "." strs)%string) ;;
  c1 <- index cs 1 ;; name <- Lark.value c1 ;;
  ce <- index cs extendee_pos ;; extendee <- expression_to_str ce ;;
  let formatted_lines : FormattedLines :=
    [(Some last_processed_line_no,
      (indent_string context ++ "class_name " ++ name ++ " extends "
       ++ extendee ++ optional_attributes)%string)] in
  Ok (formatted_lines, last_processed_line_no).

Definition _format_class_statement (self : Handler) (statement : Node)
    (context : Context) : Result Outcome :=
  last_processed_line_no <- Lark.line statement ;;
  cs <- Lark.children statement ;;
  c0 <- index cs 0 ;; name <- Lark.value c0 ;;
  let formatted_lines : FormattedLines :=
    [(Some last_processed_line_no,
      (indent_string context ++ "class " ++ name ++ ":")%string)] in
  '(class_lines, last_processed_line_no) <-
    format_block (Py.slice_from 1 cs) self
      (create_child_context context last_processed_line_no) None ;;
  Ok (formatted_lines ++ class_lines, last_processed_line_no).

Definition _format_func_header (statement : Node) (context : Context)
  : Result Outcome :=
  cs <- Lark.children statement ;;
  c0 <- index cs 0 ;; name <- Lark.value c0 ;;
  let has_return_type := Nat.ltb 2 (List.length cs) in
  ln <- Lark.line statement ;;
  suffix <-
    (if has_return_type then
       c2 <- index cs 2 ;; return_type <- Lark.value c2 ;;
       Ok (" -> " ++ return_type ++ ":")%string
     else Ok ":") ;;
  eln <- Lark.end_line statement ;;
  let expression_context :=
    mkExpressionContext ("func " ++ name)%string ln suffix eln in
  func_args <- index cs 1 ;;
  format_concrete_expression func_args expression_context context.

Definition _format_func_statement (statement : Node) (context : Context)
  : Result Outcome :=
  cs <- Lark.children statement ;;
  func_header <- index cs 0 ;;
  '(formatted_lines, last_processed_line_no) <-
    _format_func_header func_header context ;;
  '(func_lines, last_processed_line_no) <-
    format_block (Py.slice_from 1 cs) format_func_statement
      (create_child_context context last_processed_line_no) None ;;
  Ok (formatted_lines ++ func_lines, last_processed_line_no).

Definition _format_enum_statement (statement : Node) (context : Context)
  : Result Outcome :=
  cs <- Lark.children statement ;;
  actual_enum <- index cs 0 ;;
  ecs <- Lark.children actual_enum ;;
  prefix <-
    (if Nat.eqb (List.length ecs) 2 then
       e0 <- index ecs 0 ;; name <- Lark.value e0 ;;
       Ok ("enum " ++ name ++ " ")%string
     else Ok "enum ") ;;
  ln <- Lark.line statement ;;
  eln <- Lark.end_line statement ;;
  let expression_context := mkExpressionContext prefix ln "" eln in
  enum_body <- index_last ecs ;;
  format_concrete_expression enum_body expression_context context.

(** The dict literal of [format_class_statement], in source order. *)
Definition handlers (self : Handler) : list (string * Handler) :=
  [ ("pass_stmt", format_simple_statement "pass");
    ("enum_stmt", _format_enum_statement);
    ("signal_stmt", _format_signal_statement);
    ("extends_stmt", _format_extends_statement);
    ("classname_stmt", _format_classname_statement);
    ("classname_extends_stmt", _format_classname_extends_statement);
    ("class_var_stmt", format_var_statement);
    ("const_stmt", _format_const_statement);
    ("class_def", _format_class_statement self);
    ("func_def", _format_func_statement);
    ("static_func_def",
     fun statement context =>
       _format_child_and_prepend_to_outcome self statement context "static ")
  ].

(** The body of [format_class_statement]: [handlers[statement.data]]
    raises [KeyError] on a missing key. *)
Definition dispatch_class_statement (self : Handler) : Handler :=
  fun statement context =>
    tag <- Lark.data statement ;;
    match dict_get (handlers self) tag with
    | Some handler => handler statement context
    | None => Raise (KeyError tag)
    end.

(** [format_class_statement], the recursion through its own name bounded
    by a call depth: past it Python raises [RecursionError]. *)
Fixpoint format_class_statement (depth : nat) : Handler :=
  match depth with
  | O => fun _ _ => Raise RecursionError
  | S depth' => dispatch_class_statement (format_class_statement depth')
  end.

End ClassStatement.

(** ** [formatter/formatter.py] *)

Definition is_blank (text : string) : bool := String.eqb (Py.strip text) "".

Definition is_region (text : string) : bool :=
  Py.startswith (Py.strip text) "#region".

Definition is_endregion (text : string) : bool :=
  Py.startswith (Py.strip text) "#endregion".

(** [postprocessed_lines[-1][1].strip() == ""] *)
Definition blank_line (fl : FormattedLine) : bool := is_blank (snd fl).

(** The synthetic blank line [(None, "")]. *)
Definition empty_line : FormattedLine := (None, "").

Section Formatter.

(** [INLINE_COMMENT_OFFSET], from [formatter/constants.py]. *)
Variable INLINE_COMMENT_OFFSET : nat.

(** Compiled patterns of [re]: [re_search p s] is
    [p.search(s).group(0)], [None] when [p.search(s)] is [None]. *)
Variable Pattern : Type.
Variable re_search : Pattern -> string -> option string.

(** *** [_add_inline_comments] *)

Definition comment_offset : string := Py.mul " " INLINE_COMMENT_OFFSET.

(** One iteration of the loop over [reversed(formatted_lines)]; the state
    is [(remaining_comments, postprocessed_lines)]. *)
Definition inline_step (st : Comments * FormattedLines) (fl : FormattedLine)
  : Comments * FormattedLines :=
  let '(remaining_comments, postprocessed_lines) := st in
  match fl with
  | (None, line) => (remaining_comments, postprocessed_lines ++ [(None, line)])
  | (Some line_no, line) =>
      let comments := Py.slice_from line_no remaining_comments in
      let remaining_comments := Py.slice_to line_no remaining_comments in
      match comments with
      | [] => (remaining_comments, postprocessed_lines ++ [(Some line_no, line)])
      | _ :: _ =>
          let new_line := Py.join comment_offset (line :: Py.not_none comments) in
          (remaining_comments, postprocessed_lines ++ [(Some line_no, new_line)])
      end
  end.

Definition _add_inline_comments (formatted_lines : FormattedLines)
    (comments : Comments) : FormattedLines :=
  rev (snd (fold_left inline_step (rev formatted_lines) (comments, []))).

(** *** [_get_greater_indent] *)

Definition _get_greater_indent (line_a line_b : string)
    (indent_regex : Pattern) : string :=
  let line_a_match := re_search indent_regex line_a in
  let line_b_match := re_search indent_regex line_b in
  let line_a_indent := match line_a_match with None => "" | Some g => g end in
  let line_b_indent := match line_b_match with None => "" | Some g => g end in
  if Nat.ltb (String.length line_b_indent) (String.length line_a_indent)
  then line_a_indent else line_b_indent.

(** *** [_add_standalone_comments] *)

(** The inner loop [for i, comment in enumerate(reversed_comments)]:
    the argument is [reversed_comments[i:]], so that
    [reversed_comments[i + 1]] is the head of the rest, present exactly
    when [i + 1 < len(reversed_comments)]. *)
Fixpoint standalone_batch (indent : string) (reversed_comments : Comments)
    (postprocessed_lines : FormattedLines) : FormattedLines :=
  match reversed_comments with
  | [] => postprocessed_lines
  | None :: rest => standalone_batch indent rest postprocessed_lines
  | Some comment :: rest =>
      let stripped := Py.strip comment in
      if Py.startswith stripped "#region" then
        standalone_batch indent rest
          (postprocessed_lines ++ [empty_line]
             ++ [(None, (indent ++ comment)%string)])
      else if Py.startswith stripped "#endregion" then
        let popped := Py.pop_while blank_line postprocessed_lines in
        let emitted := popped ++ [(None, (indent ++ comment)%string)] in
        standalone_batch indent rest
          (match rest with
           | Some next_comment :: _ =>
               if negb (String.eqb next_comment "")
                  && Py.startswith (Py.strip next_comment) "#region"
               then emitted ++ [empty_line] ++ [empty_line]
               else emitted
           | _ => emitted
           end)
      else
        standalone_batch indent rest
          (postprocessed_lines ++ [(None, (indent ++ comment)%string)])
  end.

(** The local variables of the outer loop. *)
Record Standalone : Type := mkStandalone {
  remaining_comments : Comments;
  postprocessed_lines : FormattedLines;
  currently_inside_expression : bool;
  last_expression_line_no : option nat
}.

(** [postprocessed_lines[-1][1]]; the list is never empty where the loop
    reads it (lemma [standalone_inside_last]). *)
Definition last_text (postprocessed_lines : FormattedLines) : string :=
  snd (last postprocessed_lines empty_line).

(** One iteration of the loop over [reversed(formatted_lines)]. *)
Definition standalone_step (indent_regex : Pattern) (st : Standalone)
    (fl : FormattedLine) : Standalone :=
  match fl with
  | (None, line) =>
      mkStandalone (remaining_comments st)
        (postprocessed_lines st ++ [(None, line)])
        false (last_expression_line_no st)
  | (Some line_no, line) =>
      if negb (currently_inside_expression st) then
        mkStandalone (remaining_comments st)
          (postprocessed_lines st ++ [(Some line_no, line)])
          true (Some line_no)
      else
        let comments :=
          Py.slice line_no (last_expression_line_no st)
            (remaining_comments st) in
        let remaining := Py.slice_to line_no (remaining_comments st) in
        let indent :=
          _get_greater_indent line (last_text (postprocessed_lines st))
            indent_regex in
        let reversed_comments := rev comments in
        let lines :=
          standalone_batch indent reversed_comments (postprocessed_lines st) in
        mkStandalone remaining (lines ++ [(Some line_no, line)])
          (currently_inside_expression st) (last_expression_line_no st)
  end.

Definition _add_standalone_comments (formatted_lines : FormattedLines)
    (standalone_comments : Comments) (indent_regex : Pattern)
  : FormattedLines :=
  rev (postprocessed_lines
         (fold_left (standalone_step indent_regex) (rev formatted_lines)
            (mkStandalone standalone_comments [] false None))).

(** *** [_cleanup_region_spacing] *)

(** The look-ahead loop from [j = i + 1]: the argument is
    [formatted_lines[j:]]; the result is the number of blank lines the
    [for _ in range(missing)] loop appends ([range] of a negative number
    is empty). *)
Fixpoint region_lookahead (following : FormattedLines) (blank_lines : nat)
  : nat :=
  match following with
  | [] => 0
  | (_, next_line) :: rest =>
      if is_blank next_line then region_lookahead rest (blank_lines + 1)
      else if is_region next_line then 2 - blank_lines
      else 0
  end.

(** The loop [while i < len(formatted_lines)]: the first argument is
    [formatted_lines[i:]]. *)
Fixpoint cleanup_loop (formatted_lines : FormattedLines)
    (cleaned : FormattedLines) : FormattedLines :=
  match formatted_lines with
  | [] => cleaned
  | (line_no, line) :: rest =>
      if is_endregion line then
        let cleaned := Py.pop_while blank_line cleaned in
        let cleaned := cleaned ++ [(line_no, line)] in
        cleanup_loop rest
          (cleaned ++ repeat empty_line (region_lookahead rest 0))
      else cleanup_loop rest (cleaned ++ [(line_no, line)])
  end.

Definition _cleanup_region_spacing (formatted_lines : FormattedLines)
  : FormattedLines :=
  cleanup_loop formatted_lines [].

End Formatter.

(** *** [format_code] *)

Section FormatCode.

Variable INLINE_COMMENT_OFFSET : nat.
Variable Pattern : Type.
Variable re_search : Pattern -> string -> option string.

(** [formatter/constants.py] *)
Variable TAB_INDENT_SIZE : nat.
Variable EmptyLinesTable : Type.
Variable GLOBAL_SCOPE_SURROUNDING_EMPTY_LINES_TABLE : EmptyLinesTable.

(** [formatter/context.py]: the constructor with the keyword arguments
    of [format_code], and the attributes read here and in
    [class_statement.py]. *)
Variable Context : Type.
Variable mkContext :
  forall (single_indent_size : nat) (single_indent_string : string)
         (previously_processed_line_number max_line_length : nat)
         (gdscript_code_lines : list string)
         (standalone_comments inline_comments : Comments), Context.
Variable inline_comments : Context -> Comments.
Variable standalone_comments : Context -> Comments.
Variable indent_regex : Context -> Pattern.
Variable indent_string : Context -> string.
Variable create_child_context : Context -> nat -> Context.
Variable ExpressionContext : Type.
Variable mkExpressionContext :
  string -> nat -> string -> nat -> ExpressionContext.

(** [parser.parse(code, gather_metadata=True)], [parser.parse_comments],
    the comment gatherers and [str.splitlines]. *)
Variable parser_parse : string -> Result Node.
Variable parser_parse_comments : string -> Result Node.
Variable gather_standalone_comments : string -> Node -> Result Comments.
Variable gather_inline_comments : string -> Node -> Result Comments.
Variable splitlines : string -> list string.

(** The collaborators of [format_class_statement]. *)
Variable format_block :
  list Node -> (Node -> Context -> Result Outcome) -> Context ->
  option EmptyLinesTable -> Result Outcome.
Variable format_func_statement : Node -> Context -> Result Outcome.
Variable format_simple_statement : string -> Node -> Context -> Result Outcome.
Variable format_var_statement : Node -> Context -> Result Outcome.
Variable expression_to_str : Node -> Result string.
Variable format_expression :
  Node -> ExpressionContext -> Context -> Result Outcome.
Variable format_concrete_expression :
  Node -> ExpressionContext -> Context -> Result Outcome.

(** The call depth left to [format_class_statement]. *)
Variable recursion_limit : nat.

Definition format_code (gdscript_code : string) (max_line_length : nat)
    (spaces_for_indent : option nat)
    (parse_tree comment_parse_tree : option Node) : Result string :=
  parse_tree <-
    match parse_tree with
    | Some t => Ok t
    | None => parser_parse gdscript_code
    end ;;
  comment_parse_tree <-
    match comment_parse_tree with
    | Some t => Ok t
    | None => parser_parse_comments gdscript_code
    end ;;
  let gdscript_code_lines := "" :: splitlines gdscript_code in
  let single_indent_size :=
    match spaces_for_indent with
    | None => TAB_INDENT_SIZE
    | Some n => n
    end in
  let single_indent_string :=
    match spaces_for_indent with
    | None => String "009" EmptyString
    | Some n => Py.mul " " n
    end in
  standalone <- gather_standalone_comments gdscript_code comment_parse_tree ;;
  inline <- gather_inline_comments gdscript_code comment_parse_tree ;;
  let context :=
    mkContext single_indent_size single_indent_string 0 max_line_length
      gdscript_code_lines standalone inline in
  statements <- Lark.children parse_tree ;;
  '(formatted_lines, _) <-
    format_block statements
      (format_class_statement Context indent_string create_child_context
         ExpressionContext mkExpressionContext
         EmptyLinesTable format_block format_func_statement
         format_simple_statement format_var_statement expression_to_str
         format_expression format_concrete_expression recursion_limit)
      context (Some GLOBAL_SCOPE_SURROUNDING_EMPTY_LINES_TABLE) ;;
  let formatted_lines := formatted_lines ++ [empty_line] in
  let formatted_lines :=
    _add_inline_comments INLINE_COMMENT_OFFSET formatted_lines
      (inline_comments context) in
  let formatted_lines :=
    _add_standalone_comments Pattern re_search formatted_lines
      (standalone_comments context) (indent_regex context) in
  let formatted_lines := _cleanup_region_spacing formatted_lines in
  Ok (Py.join (String "010" EmptyString) (map snd formatted_lines)).

End FormatCode.

(** ** Index-level descriptions of the two backward scans

    These follow the specification's wording (a cursor into the comment
    table) rather than the code; the theorems below relate them to the
    passes. *)

(** The slots of [table] with indices in [[n, cursor)]. *)
Definition slots (table : Comments) (n cursor : nat) : Comments :=
  firstn (cursor - n) (skipn n table).

(** The cursor of the inline pass once the lines [following] have been
    scanned tail-to-head: it starts past the table end and is lowered to
    every source line number met. *)
Fixpoint inline_cursor (following : FormattedLines) (table_length : nat) : nat :=
  match following with
  | [] => table_length
  | (None, _) :: rest => inline_cursor rest table_length
  | (Some n, _) :: rest => Nat.min n (inline_cursor rest table_length)
  end.

(** The inline slots each line claims, in document order. *)
Fixpoint inline_claims (lines : FormattedLines) (table : Comments)
  : list Comments :=
  match lines with
  | [] => []
  | (None, _) :: rest => [] :: inline_claims rest table
  | (Some n, _) :: rest =>
      slots table n (inline_cursor rest (List.length table))
        :: inline_claims rest table
  end.

(** Every numbered line followed by the non-empty slots it claims, joined
    with the offset; the other lines as they are. *)
Fixpoint inline_by_cursor (offset : nat) (lines : FormattedLines)
    (table : Comments) : FormattedLines :=
  match lines with
  | [] => []
  | (None, line) :: rest => (None, line) :: inline_by_cursor offset rest table
  | (Some n, line) :: rest =>
      (Some n,
       Py.join (Py.mul " " offset)
         (line :: Py.not_none
                    (slots table n (inline_cursor rest (List.length table)))))
        :: inline_by_cursor offset rest table
  end.

(** The state of the standalone pass once the lines [following] have been
    scanned tail-to-head: the cursor (the table slots below it are still
    unclaimed), whether the scan is inside a run of numbered lines, and the
    anchor, the number of the line that opened the run. *)
Fixpoint standalone_scan (following : FormattedLines) (table_length : nat)
  : nat * bool * option nat :=
  match following with
  | [] => (table_length, false, None)
  | (no, _) :: rest =>
      let '(cursor, inside, anchor) := standalone_scan rest table_length in
      match no with
      | None => (cursor, false, anchor)
      | Some n =>
          if inside then (Nat.min n cursor, true, anchor)
          else (cursor, true, Some n)
      end
  end.

(** The slots a line numbered [n] claims when it is reached inside a run:
    those from [n] up to the anchor, as far as they are still unclaimed. *)
Definition standalone_claim (table : Comments) (n cursor : nat)
    (anchor : option nat) : Comments :=
  match anchor with
  | Some a => slots table n (Nat.min a cursor)
  | None => slots table n cursor
  end.

(** The slots the same line removes from the table without claiming them:
    the unclaimed ones from the anchor on. *)
Definition standalone_skipped (table : Comments) (n cursor : nat)
    (anchor : option nat) : Comments :=
  match anchor with
  | Some a => slots table (Nat.max n a) cursor
  | None => []
  end.

(** For each line, in document order, the slots it claims and the slots it
    skips. *)
Fixpoint standalone_claims (lines : FormattedLines) (table : Comments)
  : list (Comments * Comments) :=
  match lines with
  | [] => []
  | (None, _) :: rest => ([], []) :: standalone_claims rest table
  | (Some n, _) :: rest =>
      let '(cursor, inside, anchor) :=
        standalone_scan rest (List.length table) in
      (if inside
       then (standalone_claim table n cursor anchor,
             standalone_skipped table n cursor anchor)
       else ([], []))
        :: standalone_claims rest table
  end.

(** The text of the first line, [""] when there is none. *)
Definition first_text (lines : FormattedLines) : string :=
  match lines with
  | (_, text) :: _ => text
  | [] => ""
  end.

(** A standalone comment rendered on a line of its own. *)
Definition comment_line (indent comment : string) : FormattedLine :=
  (None, (indent ++ comment)%string).

Section StandaloneByCursor.

Variable Pattern : Type.
Variable re_search : Pattern -> string -> option string.
Variable indent_regex : Pattern.

(** Every line reached inside a run followed by the non-empty slots it
    claims, each on a line of its own, indented as the greater of the
    line's and the next line's indentation; no blank line added or
    removed. *)
Fixpoint standalone_by_cursor (lines : FormattedLines) (table : Comments)
  : FormattedLines :=
  match lines with
  | [] => []
  | (None, line) :: rest => (None, line) :: standalone_by_cursor rest table
  | (Some n, line) :: rest =>
      let '(cursor, inside, anchor) :=
        standalone_scan rest (List.length table) in
      (Some n, line)
        :: (if inside then
              let indent :=
                _get_greater_indent Pattern re_search line (first_text rest)
                  indent_regex in
              map (comment_line indent)
                (Py.not_none (standalone_claim table n cursor anchor))
            else [])
        ++ standalone_by_cursor rest table
  end.

End StandaloneByCursor.

(** What the inline pass may do to one line. *)
Definition inline_frame (before after : FormattedLine) : Prop :=
  fst after = fst before /\
  match fst before with
  | None => snd after = snd before
  | Some _ => Py.startswith (snd after) (snd before) = true
  end.

(** ** Notions used to state and prove the spacing properties *)

Definition nonblank_line (fl : FormattedLine) : bool := negb (blank_line fl).

Definition all_blank (ls : FormattedLines) : Prop :=
  Forall (fun fl => blank_line fl = true) ls.

(** [l] without its leading elements satisfying [p]: [Py.pop_while] seen
    from the end of the list. *)
Fixpoint drop_while {A : Type} (p : A -> bool) (l : list A) : list A :=
  match l with
  | [] => []
  | x :: l' => if p x then drop_while p l' else l
  end.

(** On a list read from its end: no region-close line sits right after a
    blank line. *)
Fixpoint close_after_nonblank (stack : FormattedLines) : Prop :=
  match stack with
  | [] => True
  | e :: below =>
      (is_endregion (snd e) = true ->
       match below with
       | b :: _ => blank_line b = false
       | [] => True
       end)
      /\ close_after_nonblank below
  end.

(** On a list read from its end: the number of blank lines on top of a
    region-close line, when that is what the list ends with. *)
Fixpoint blanks_over_close (stack : FormattedLines) : option nat :=
  match stack with
  | [] => None
  | fl :: below =>
      if blank_line fl then option_map S (blanks_over_close below)
      else if is_endregion (snd fl) then Some 0
      else None
  end.

(** The number of blank lines before a region-open line, when that is how
    the list starts. *)
Fixpoint blanks_before_open (following : FormattedLines) : option nat :=
  match following with
  | [] => None
  | fl :: rest =>
      if blank_line fl then option_map S (blanks_before_open rest)
      else if is_region (snd fl) then Some 0
      else None
  end.

(** On a list read from its end: every region-open line that follows a
    region-close line, blank lines apart, follows it by two blank lines
    or more. *)
Fixpoint open_after_two (stack : FormattedLines) : Prop :=
  match stack with
  | [] => True
  | r :: below =>
      (is_region (snd r) = true ->
       forall k, blanks_over_close below = Some k -> 2 <= k)
      /\ open_after_two below
  end.

(** ** Sample inputs *)

Module Sample.

Definition TAB : string := String "009" EmptyString.

(** The leading tabs of a line: what the pattern [^\t*] matches. *)
Fixpoint leading_tabs (s : string) : string :=
  match s with
  | EmptyString => EmptyString
  | String c s' =>
      if Ascii.eqb c "009" then String c (leading_tabs s') else EmptyString
  end.

Definition tabs_search (_ : unit) (s : string) : option string :=
  Some (leading_tabs s).

Definition add_standalone := _add_standalone_comments unit tabs_search.

(** Stand-ins for the collaborators of [class_statement.py], enough to run
    the dispatcher on small trees: a context is its indent string, a child
    context is one tab deeper, an expression is rendered on one line as
    indent, prefix, text, suffix. *)
Definition Context : Type := string.

Definition indent_string (context : Context) : string := context.

Definition create_child_context (context : Context) (_ : nat) : Context :=
  (context ++ TAB)%string.

Fixpoint format_block (statements : list Node)
    (statement_formatter : Node -> Context -> Result Outcome)
    (context : Context) (table : option unit) : Result Outcome :=
  match statements with
  | [] => Ok ([], 0)
  | statement :: rest =>
      '(lines, last) <- statement_formatter statement context ;;
      '(more, last') <- format_block rest statement_formatter context table ;;
      Ok (lines ++ more, Nat.max last last')
  end.

Definition format_simple_statement (name : string) (statement : Node)
    (context : Context) : Result Outcome :=
  ln <- Lark.line statement ;;
  Ok ([(Some ln, (context ++ name)%string)], ln).

Definition format_func_statement (statement : Node) (context : Context)
  : Result Outcome :=
  tag <- Lark.data statement ;;
  if String.eqb tag "pass_stmt"
  then format_simple_statement "pass" statement context
  else Raise (KeyError tag).

Definition format_var_statement (statement : Node) (context : Context)
  : Result Outcome :=
  Raise (OtherError "not modelled").

Definition expression_to_str (expression : Node) : Result string :=
  match expression with
  | Token _ v => Ok v
  | Tree _ [] _ _ => Ok "()"
  | Tree _ (_ :: _) _ _ => Raise (OtherError "not modelled")
  end.

Record ExpressionContext : Type := mkExpressionContext {
  prefix_string : string;
  prefix_line : nat;
  suffix_string : string;
  suffix_line : nat
}.

Definition format_expression (expression : Node)
    (expression_context : ExpressionContext) (context : Context)
  : Result Outcome :=
  text <- expression_to_str expression ;;
  Ok ([(Some (prefix_line expression_context),
        (context ++ prefix_string expression_context ++ text
         ++ suffix_string expression_context)%string)],
      suffix_line expression_context).

Definition class_statement : nat -> Node -> Context -> Result Outcome :=
  format_class_statement Context indent_string create_child_context
    ExpressionContext mkExpressionContext unit
    format_block format_func_statement format_simple_statement
    format_var_statement expression_to_str format_expression
    format_expression.

Definition class_handlers
  : (Node -> Context -> Result Outcome) ->
    list (string * (Node -> Context -> Result Outcome)) :=
  handlers Context indent_string create_child_context
    ExpressionContext mkExpressionContext unit
    format_block format_func_statement format_simple_statement
    format_var_statement expression_to_str format_expression
    format_expression.

Definition const_statement : Node -> Context -> Result Outcome :=
  _format_const_statement Context ExpressionContext mkExpressionContext
    format_expression.

(** [static func foo():] on line [ln] with the body [pass] on the next
    line. *)
Definition static_func_foo_at (ln : nat) : Node :=
  Tree "static_func_def"
    [Tree "func_def"
       [Tree "func_header"
          [Token "NAME" "foo"; Tree "func_args" [] ln ln] ln ln;
        Tree "pass_stmt" [] (S ln) (S ln)]
       ln (S ln)]
    ln (S ln).

Definition static_func_foo : Node := static_func_foo_at 1.

(** [const X = 1], [const X := 1] and [const X: int = 1] on line [ln]. *)
Definition const_untyped_at (ln : nat) : Node :=
  Tree "const_stmt"
    [Token "CONST" "const"; Token "NAME" "X"; Token "EQUAL" "=";
     Token "NUMBER" "1"] ln ln.

Definition const_inferred_at (ln : nat) : Node :=
  Tree "const_stmt"
    [Token "CONST" "const"; Token "NAME" "X"; Token "COLON" ":";
     Token "EQUAL" "="; Token "NUMBER" "1"] ln ln.

Definition const_typed_at (ln : nat) : Node :=
  Tree "const_stmt"
    [Token "CONST" "const"; Token "NAME" "X"; Token "COLON" ":";
     Token "TYPE" "int"; Token "EQUAL" "="; Token "NUMBER" "1"] ln ln.

Definition const_untyped : Node := const_untyped_at 1.
Definition const_inferred : Node := const_inferred_at 1.
Definition const_typed : Node := const_typed_at 1.

End Sample.

(** ** Notions used by the further properties *)

(** Whether a line carries a source line number. *)
Definition numbered_line (fl : FormattedLine) : bool :=
  match fst fl with
  | Some _ => true
  | None => false
  end.

(** The source line numbers of the lines, in document order. *)
Fixpoint line_numbers (lines : FormattedLines) : list nat :=
  match lines with
  | [] => []
  | (Some n, _) :: rest => n :: line_numbers rest
  | (None, _) :: rest => line_numbers rest
  end.

(** A table without comments: every slot is [None]. *)
Definition no_comments (table : Comments) : Prop :=
  Forall (fun c => c = None) table.

(** A slot that holds no region marker. *)
Definition plain_slot (c : option string) : Prop :=
  match c with
  | Some text => is_region text = false /\ is_endregion text = false
  | None => True
  end.

(** No numbered line comes right after another numbered line. *)
Fixpoint no_adjacent_numbers (lines : FormattedLines) : Prop :=
  match lines with
  | [] => True
  | (Some _, _) :: (((Some _, _) :: _) as rest) => False
  | _ :: rest => no_adjacent_numbers rest
  end.

(** * Properties *)

(** ** The passes on small inputs *)

Example inline_comments_sample :
  _add_inline_comments 2
    [(Some 1, "var a = 1"); (None, ""); (Some 3, "var b = ["); (Some 5, "]");
     (None, "")]
    [None; Some "# one"; None; Some "# three"; Some "# four"; None]
  = [(Some 1, "var a = 1  # one"); (None, "");
     (Some 3, "var b = [  # three  # four"); (Some 5, "]"); (None, "")].
Proof. reflexivity. Qed.

Example standalone_comments_sample :
  Sample.add_standalone
    [(Some 1, "var b = ["); (Some 3, (Sample.TAB ++ "1,")%string);
     (Some 5, "]"); (None, "")]
    [None; None; Some "# two"; None; Some "# four"; None] tt
  = [(Some 1, "var b = [");
     (None, (Sample.TAB ++ "# two")%string);
     (Some 3, (Sample.TAB ++ "1,")%string);
     (None, (Sample.TAB ++ "# four")%string);
     (Some 5, "]"); (None, "")].
Proof. reflexivity. Qed.

Example cleanup_sample :
  _cleanup_region_spacing
    [(None, "#region A"); (Some 2, "var a"); (None, "");
     (None, "#endregion"); (None, ""); (None, "#region B");
     (Some 7, "var b"); (None, "#endregion"); (None, "")]
  = [(None, "#region A"); (Some 2, "var a");
     (None, "#endregion"); (None, ""); (None, ""); (None, "#region B");
     (Some 7, "var b"); (None, "#endregion"); (None, "")].
Proof. reflexivity. Qed.

Example class_def_sample :
  Sample.class_statement 3
    (Tree "class_def"
       [Token "NAME" "A"; Sample.const_typed_at 2;
        Sample.static_func_foo_at 3] 1 4)
    ""
  = Ok ([(Some 1, "class A:");
         (Some 2, (Sample.TAB ++ "const X: int = 1")%string);
         (Some 3, (Sample.TAB ++ "static func foo():")%string);
         (Some 4, (Sample.TAB ++ Sample.TAB ++ "pass")%string)], 4).
Proof. reflexivity. Qed.

(** ** Python built-ins *)

Module PyFacts.

Lemma startswith_append (s t : string) : Py.startswith (s ++ t) s = true.
Proof.
  induction s as [|c s IH]; simpl; [reflexivity|].
  now rewrite Ascii.eqb_refl.
Qed.

Lemma join_cons_startswith (sep x : string) (l : list string) :
  Py.startswith (Py.join sep (x :: l)) x = true.
Proof.
  unfold Py.join. destruct l as [|y l]; simpl.
  - rewrite <- (startswith_append x "") at 1.
    f_equal. induction x; simpl; congruence.
  - apply startswith_append.
Qed.

Lemma join_singleton (sep x : string) : Py.join sep [x] = x.
Proof. reflexivity. Qed.

Lemma slots_nth (table : Comments) (n cursor i : nat) :
  nth_error (slots table n cursor) i =
  if i <? cursor - n then nth_error table (n + i) else None.
Proof.
  unfold slots. destruct (Nat.ltb_spec i (cursor - n)) as [lt|ge].
  - rewrite nth_error_firstn.
    destruct (Nat.ltb_spec i (cursor - n)); [|lia].
    now rewrite nth_error_skipn.
  - apply nth_error_None. rewrite length_firstn. lia.
Qed.

End PyFacts.

(** ** The inline-comment pass *)

Section InlineFacts.

Variable INLINE_COMMENT_OFFSET : nat.

Local Abbreviation add_inline := (_add_inline_comments INLINE_COMMENT_OFFSET).
Local Abbreviation step := (inline_step INLINE_COMMENT_OFFSET).

(** The state of the loop after the lines [lines] have been scanned. *)
Lemma inline_scan (lines : FormattedLines) (table : Comments) :
  fold_left step (rev lines) (table, []) =
  (firstn (inline_cursor lines (List.length table)) table,
   rev (inline_by_cursor INLINE_COMMENT_OFFSET lines table)).
Proof.
  induction lines as [|[[n|] line] rest IH]; simpl.
  - now rewrite firstn_all.
  - rewrite fold_left_app, IH. simpl.
    unfold Py.slice_from, Py.slice_to.
    rewrite skipn_firstn_comm, firstn_firstn.
    fold (slots table n (inline_cursor rest (List.length table))).
    destruct (slots table n (inline_cursor rest (List.length table)));
      reflexivity.
  - rewrite fold_left_app, IH. reflexivity.
Qed.

Lemma add_inline_by_cursor (lines : FormattedLines) (table : Comments) :
  add_inline lines table = inline_by_cursor INLINE_COMMENT_OFFSET lines table.
Proof.
  unfold _add_inline_comments. rewrite inline_scan. simpl.
  apply rev_involutive.
Qed.

Lemma inline_by_cursor_frame (lines : FormattedLines) (table : Comments) :
  Forall2 inline_frame lines
    (inline_by_cursor INLINE_COMMENT_OFFSET lines table).
Proof.
  induction lines as [|[[n|] line] rest IH]; simpl; constructor; auto.
  - split; simpl; [reflexivity | apply PyFacts.join_cons_startswith].
  - split; reflexivity.
Qed.

Lemma inline_by_cursor_app (before lines : FormattedLines) (table : Comments) :
  exists done,
    inline_by_cursor INLINE_COMMENT_OFFSET (before ++ lines) table
    = done ++ inline_by_cursor INLINE_COMMENT_OFFSET lines table
    /\ List.length done = List.length before.
Proof.
  induction before as [|[[n|] line] before (done & E & L)].
  - now exists [].
  - eexists (_ :: done). cbn [app inline_by_cursor]. rewrite E.
    split; [reflexivity | simpl; now rewrite L].
  - eexists (_ :: done). cbn [app inline_by_cursor]. rewrite E.
    split; [reflexivity | simpl; now rewrite L].
Qed.

(** C6. Scanning tail-to-head with a cursor that starts at the table's
    length, a line numbered [n] claims the inline slots with indices in
    [[n, cursor)], its text becomes the join, with the offset, of the
    text and the non-empty claimed comments in increasing index order,
    and the cursor drops to [min n cursor]; a line without a number is
    unchanged and leaves the cursor where it was. *)
Theorem inline_pass_claims_by_cursor :
  forall (lines : FormattedLines) (table : Comments),
    add_inline lines table
    = inline_by_cursor INLINE_COMMENT_OFFSET lines table
    /\ fst (fold_left step (rev lines) (table, []))
       = firstn (inline_cursor lines (List.length table)) table
    /\ (forall before n line after,
          nth_error (add_inline (before ++ (Some n, line) :: after) table)
            (List.length before)
          = Some (Some n,
                  Py.join (comment_offset INLINE_COMMENT_OFFSET)
                    (line :: Py.not_none
                               (slots table n
                                  (inline_cursor after
                                     (List.length table))))))
    /\ (forall before line after,
          nth_error (add_inline (before ++ (None, line) :: after) table)
            (List.length before)
          = Some (None, line))
    /\ (forall n cursor i,
          nth_error (slots table n cursor) i
          = if i <? cursor - n then nth_error table (n + i) else None).
Proof.
  intros lines table. split; [apply add_inline_by_cursor|].
  split; [now rewrite inline_scan|].
  split; [|split; [|apply PyFacts.slots_nth]].
  - intros before n line after. rewrite add_inline_by_cursor.
    destruct (inline_by_cursor_app before ((Some n, line) :: after) table)
      as (done & E & L).
    transitivity
      (nth_error
         (done ++ inline_by_cursor INLINE_COMMENT_OFFSET
                    ((Some n, line) :: after) table)
         (List.length done)).
    { f_equal; [exact E | symmetry; exact L]. }
    rewrite nth_error_app2, Nat.sub_diag by lia. reflexivity.
  - intros before line after. rewrite add_inline_by_cursor.
    destruct (inline_by_cursor_app before ((None, line) :: after) table)
      as (done & E & L).
    transitivity
      (nth_error
         (done ++ inline_by_cursor INLINE_COMMENT_OFFSET
                    ((None, line) :: after) table)
         (List.length done)).
    { f_equal; [exact E | symmetry; exact L]. }
    rewrite nth_error_app2, Nat.sub_diag by lia. reflexivity.
Qed.

(** C10. The inline pass returns as many lines as it received, in the
    same order and with the same source numbers; a line without a number
    keeps its text, and the text of a numbered line is a prefix of its
    new text. *)
Theorem inline_pass_frame :
  forall (lines : FormattedLines) (table : Comments),
    Forall2 inline_frame lines (add_inline lines table)
    /\ List.length (add_inline lines table) = List.length lines
    /\ map fst (add_inline lines table) = map fst lines.
Proof.
  intros lines table. rewrite add_inline_by_cursor.
  pose proof (inline_by_cursor_frame lines table) as F.
  split; [exact F|]. split.
  - symmetry. exact (Forall2_length F).
  - induction F as [|a b l l' [E _] _ IH]; simpl; congruence.
Qed.

End InlineFacts.

(** ** Blank lines and region markers *)

Module MarkerFacts.

Lemma endregion_not_blank (t : string) :
  is_endregion t = true -> is_blank t = false.
Proof.
  unfold is_endregion, is_blank.
  destruct (Py.strip t); simpl; [discriminate | reflexivity].
Qed.

Lemma region_not_blank (t : string) :
  is_region t = true -> is_blank t = false.
Proof.
  unfold is_region, is_blank.
  destruct (Py.strip t); simpl; [discriminate | reflexivity].
Qed.

Lemma endregion_not_region (t : string) :
  is_endregion t = true -> is_region t = false.
Proof.
  unfold is_endregion, is_region.
  destruct (Py.strip t) as [|a [|b u]]; cbn [Py.startswith];
    try discriminate.
  - now rewrite andb_false_r.
  - destruct (Ascii.eqb "#" a); cbn [andb]; [|discriminate].
    destruct (Ascii.eqb_spec "e" b) as [<-|]; cbn [andb]; [|discriminate].
    reflexivity.
Qed.

Lemma blank_not_endregion (t : string) :
  is_blank t = true -> is_endregion t = false.
Proof.
  intros B. destruct (is_endregion t) eqn:E; [|reflexivity].
  apply endregion_not_blank in E. congruence.
Qed.

Lemma blank_not_region (t : string) :
  is_blank t = true -> is_region t = false.
Proof.
  intros B. destruct (is_region t) eqn:E; [|reflexivity].
  apply region_not_blank in E. congruence.
Qed.

Lemma pop_while_snoc {A : Type} (p : A -> bool) (l : list A) (x : A) :
  Py.pop_while p (l ++ [x]) = if p x then Py.pop_while p l else l ++ [x].
Proof.
  induction l as [|a l IH]; simpl.
  - now destruct (p x).
  - rewrite IH. destruct (p x); [reflexivity|].
    now destruct l.
Qed.

Lemma pop_while_rev {A : Type} (p : A -> bool) (l : list A) :
  rev (Py.pop_while p l) = drop_while p (rev l).
Proof.
  induction l as [|x l IH] using rev_ind; [reflexivity|].
  rewrite pop_while_snoc, rev_app_distr. simpl.
  destruct (p x); [exact IH | now rewrite rev_app_distr].
Qed.

Lemma drop_while_head {A : Type} (p : A -> bool) (l : list A) :
  match drop_while p l with
  | x :: _ => p x = false
  | [] => True
  end.
Proof.
  induction l as [|x l IH]; simpl; [exact I|].
  destruct (p x) eqn:E; [exact IH | exact E].
Qed.

Lemma filter_drop_while {A : Type} (p : A -> bool) (l : list A) :
  filter (fun x => negb (p x)) (drop_while p l)
  = filter (fun x => negb (p x)) l.
Proof.
  induction l as [|x l IH]; simpl; [reflexivity|].
  destruct (p x) eqn:E; simpl; [exact IH | now rewrite E].
Qed.

Lemma filter_pop_while {A : Type} (p : A -> bool) (l : list A) :
  filter (fun x => negb (p x)) (Py.pop_while p l)
  = filter (fun x => negb (p x)) l.
Proof.
  rewrite <- (rev_involutive (Py.pop_while p l)), pop_while_rev.
  rewrite filter_rev, filter_drop_while, <- filter_rev.
  now rewrite rev_involutive.
Qed.

Lemma pop_while_app_keep {A : Type} (p : A -> bool) (c m : list A) (x : A) :
  p x = false ->
  Py.pop_while p (c ++ x :: m) = c ++ x :: Py.pop_while p m.
Proof.
  intros H. induction m as [|y m IH] using rev_ind.
  - simpl. change (c ++ [x]) with (c ++ [x]).
    rewrite pop_while_snoc, H. reflexivity.
  - replace (c ++ x :: m ++ [y]) with ((c ++ x :: m) ++ [y])
      by now rewrite <- app_assoc.
    rewrite !pop_while_snoc. destruct (p y); [exact IH|].
    now rewrite <- app_assoc.
Qed.

End MarkerFacts.

(** ** The region-spacing cleanup *)

Module CleanupFacts.

Import MarkerFacts.

Lemma rev_repeat {A : Type} (x : A) (n : nat) : rev (repeat x n) = repeat x n.
Proof.
  induction n as [|n IH]; [reflexivity|].
  simpl. rewrite IH. symmetry. apply repeat_cons.
Qed.

Lemma lookahead_blanks_before_open (following : FormattedLines) (k : nat) :
  region_lookahead following k =
  match blanks_before_open following with
  | Some j => 2 - (k + j)
  | None => 0
  end.
Proof.
  revert k. induction following as [|[no text] rest IH]; intros k;
    cbn [region_lookahead blanks_before_open]; [reflexivity|].
  unfold blank_line; cbn [snd]. destruct (is_blank text).
  - rewrite IH. destruct (blanks_before_open rest); cbn [option_map];
      [f_equal; lia | reflexivity].
  - destruct (is_region text); [f_equal; lia | reflexivity].
Qed.

Lemma close_after_nonblank_drop (stack : FormattedLines) :
  close_after_nonblank stack ->
  close_after_nonblank (drop_while blank_line stack).
Proof.
  induction stack as [|x stack IH]; simpl; [trivial|].
  intros [H1 H2]. destruct (blank_line x); [auto | now split].
Qed.

Lemma open_after_two_drop (stack : FormattedLines) :
  open_after_two stack -> open_after_two (drop_while blank_line stack).
Proof.
  induction stack as [|x stack IH]; simpl; [trivial|].
  intros [H1 H2]. destruct (blank_line x); [auto | now split].
Qed.

Lemma close_after_nonblank_blanks (j : nat) (stack : FormattedLines) :
  close_after_nonblank stack ->
  close_after_nonblank (repeat empty_line j ++ stack).
Proof.
  intros H. induction j as [|j IH]; simpl; [exact H|].
  split; [discriminate | exact IH].
Qed.

Lemma open_after_two_blanks (j : nat) (stack : FormattedLines) :
  open_after_two stack -> open_after_two (repeat empty_line j ++ stack).
Proof.
  intros H. induction j as [|j IH]; simpl; [exact H|].
  split; [discriminate | exact IH].
Qed.

Lemma blanks_over_close_blanks (j : nat) (e : FormattedLine)
    (below : FormattedLines) :
  is_endregion (snd e) = true ->
  blanks_over_close (repeat empty_line j ++ e :: below) = Some j.
Proof.
  intros E. induction j as [|j IH]; simpl.
  - unfold blank_line. now rewrite (endregion_not_blank _ E), E.
  - now rewrite IH.
Qed.

Lemma blanks_over_close_all_blank (bs : FormattedLines) (e : FormattedLine)
    (below : FormattedLines) :
  all_blank bs -> is_endregion (snd e) = true ->
  blanks_over_close (bs ++ e :: below) = Some (List.length bs).
Proof.
  intros B E. induction B as [|b bs Hb _ IH]; simpl.
  - unfold blank_line. now rewrite (endregion_not_blank _ E), E.
  - now rewrite Hb, IH.
Qed.

Lemma blanks_before_open_all_blank (bs : FormattedLines) (r : FormattedLine)
    (rest : FormattedLines) :
  all_blank bs -> is_region (snd r) = true ->
  blanks_before_open (bs ++ r :: rest) = Some (List.length bs).
Proof.
  intros B R. induction B as [|b bs Hb _ IH]; simpl.
  - unfold blank_line. now rewrite (region_not_blank _ R), R.
  - now rewrite Hb, IH.
Qed.

(** The invariant of the forward scan, on [cleaned] read from its end. *)
Lemma cleanup_loop_invariant (rest cleaned : FormattedLines) :
  close_after_nonblank (rev cleaned) ->
  open_after_two (rev cleaned) ->
  (forall k j, blanks_over_close (rev cleaned) = Some k ->
               blanks_before_open rest = Some j -> 2 <= k + j) ->
  close_after_nonblank (rev (cleanup_loop rest cleaned))
  /\ open_after_two (rev (cleanup_loop rest cleaned)).
Proof.
  revert cleaned.
  induction rest as [|[no text] rest IH]; intros cleaned HA HB HJ; simpl;
    [now split|].
  destruct (is_endregion text) eqn:E.
  - apply IH.
    + rewrite !rev_app_distr, rev_repeat, pop_while_rev. simpl.
      apply close_after_nonblank_blanks. simpl. split.
      * intros _. pose proof (drop_while_head blank_line (rev cleaned)) as D.
        destruct (drop_while blank_line (rev cleaned)); [exact I | exact D].
      * now apply close_after_nonblank_drop.
    + rewrite !rev_app_distr, rev_repeat, pop_while_rev. simpl.
      apply open_after_two_blanks. simpl. split.
      * rewrite (endregion_not_region _ E). discriminate.
      * now apply open_after_two_drop.
    + intros k j Hk Hj.
      rewrite !rev_app_distr, rev_repeat, pop_while_rev in Hk. simpl in Hk.
      rewrite blanks_over_close_blanks in Hk by exact E.
      rewrite lookahead_blanks_before_open, Hj in Hk.
      assert (2 - (0 + j) = k) by congruence. lia.
  - apply IH.
    + rewrite rev_app_distr. simpl. split; [|exact HA].
      rewrite E. discriminate.
    + rewrite rev_app_distr. simpl. split; [|exact HB].
      intros R k Hk. specialize (HJ k 0 Hk). simpl in HJ.
      unfold blank_line in HJ. simpl in HJ.
      rewrite (region_not_blank _ R), R in HJ.
      specialize (HJ eq_refl). lia.
    + intros k j Hk Hj. rewrite rev_app_distr in Hk. simpl in Hk.
      unfold blank_line in Hk. simpl in Hk, HJ.
      unfold blank_line in HJ. simpl in HJ.
      destruct (is_blank text).
      * destruct (blanks_over_close (rev cleaned)) as [k0|];
          [|discriminate].
        injection Hk as <-. specialize (HJ k0 (S j) eq_refl).
        rewrite Hj in HJ. specialize (HJ eq_refl). lia.
      * rewrite E in Hk. discriminate.
Qed.

Lemma close_after_nonblank_at (above below : FormattedLines)
    (e b : FormattedLine) :
  close_after_nonblank (above ++ e :: b :: below) ->
  is_endregion (snd e) = true -> blank_line b = false.
Proof.
  induction above as [|x above IH]; simpl.
  - intros [H _]. exact H.
  - intros [_ H]. exact (IH H).
Qed.

Lemma open_after_two_at (above below : FormattedLines) (r : FormattedLine)
    (k : nat) :
  open_after_two (above ++ r :: below) ->
  is_region (snd r) = true -> blanks_over_close below = Some k -> 2 <= k.
Proof.
  induction above as [|x above IH]; simpl.
  - intros [H _] R Hk. exact (H R k Hk).
  - intros [_ H]. exact (IH H).
Qed.

(** A region-close line hides what follows it from the look-ahead of the
    lines before it. *)
Lemma lookahead_stops_at_close (l rest : FormattedLines) (e : FormattedLine)
    (k : nat) :
  is_endregion (snd e) = true ->
  region_lookahead (l ++ e :: rest) k = region_lookahead l k.
Proof.
  intros E. revert k. induction l as [|[no text] l IH]; intros k; simpl.
  - destruct e as [no text]. simpl in E.
    now rewrite (endregion_not_blank _ E), (endregion_not_region _ E).
  - destruct (is_blank text); [apply IH | reflexivity].
Qed.

Lemma cleanup_loop_app_close (l rest cleaned : FormattedLines)
    (e : FormattedLine) :
  is_endregion (snd e) = true ->
  cleanup_loop (l ++ e :: rest) cleaned
  = cleanup_loop (e :: rest) (cleanup_loop l cleaned).
Proof.
  intros E. revert cleaned.
  induction l as [|[no text] l IH]; intros cleaned; [reflexivity|].
  cbn [app cleanup_loop]. destruct (is_endregion text).
  - rewrite lookahead_stops_at_close by exact E. apply IH.
  - apply IH.
Qed.

Lemma cleanup_loop_blanks (bs rest cleaned : FormattedLines) :
  all_blank bs ->
  cleanup_loop (bs ++ rest) cleaned = cleanup_loop rest (cleaned ++ bs).
Proof.
  intros B. revert cleaned.
  induction B as [|[no text] bs Hb _ IH]; intros cleaned; simpl.
  - now rewrite app_nil_r.
  - unfold blank_line in Hb. simpl in Hb.
    rewrite (blank_not_endregion _ Hb), IH, <- app_assoc. reflexivity.
Qed.

(** Lines before a non-blank line of [cleaned] are out of reach of the
    rest of the scan. *)
Lemma cleanup_loop_keeps (rest c m : FormattedLines) (x : FormattedLine) :
  blank_line x = false ->
  exists m', cleanup_loop rest (c ++ x :: m) = c ++ x :: m'.
Proof.
  intros X. revert m.
  induction rest as [|[no text] rest IH]; intros m; simpl.
  - now exists m.
  - destruct (is_endregion text).
    + rewrite (pop_while_app_keep _ c m x X).
      repeat rewrite <- app_assoc. simpl. apply IH.
    + rewrite <- app_assoc. simpl. apply IH.
Qed.

Lemma filter_nonblank_pop (l : FormattedLines) :
  filter nonblank_line (Py.pop_while blank_line l) = filter nonblank_line l.
Proof. exact (filter_pop_while blank_line l). Qed.

Lemma filter_nonblank_empty_lines (n : nat) :
  filter nonblank_line (repeat empty_line n) = [].
Proof. induction n; simpl; auto. Qed.

Lemma nonblank_endregion (no : option nat) (text : string) :
  is_endregion text = true -> nonblank_line (no, text) = true.
Proof.
  intros E. unfold nonblank_line, blank_line. simpl.
  now rewrite (endregion_not_blank _ E).
Qed.

Lemma cleanup_loop_nonblank (rest cleaned : FormattedLines) :
  filter nonblank_line (cleanup_loop rest cleaned)
  = filter nonblank_line cleaned ++ filter nonblank_line rest.
Proof.
  revert cleaned.
  induction rest as [|[no text] rest IH]; intros cleaned;
    cbn [cleanup_loop filter].
  - now rewrite app_nil_r.
  - destruct (is_endregion text) eqn:E.
    + rewrite IH, !filter_app, filter_nonblank_pop,
        filter_nonblank_empty_lines.
      cbn [filter]. rewrite (nonblank_endregion no text E).
      now rewrite app_nil_r, <- app_assoc.
    + rewrite IH, filter_app. cbn [filter].
      destruct (nonblank_line (no, text)).
      * now rewrite <- app_assoc.
      * now rewrite app_nil_r.
Qed.

Lemma region_not_endregion (t : string) :
  is_region t = true -> is_endregion t = false.
Proof.
  intros R. destruct (is_endregion t) eqn:E; [|reflexivity].
  apply endregion_not_region in E. congruence.
Qed.

(** What the scan does with a region-close line, the blank lines after it
    and the region-open line they lead to. *)
Lemma cleanup_close_open (pre bs post : FormattedLines) (e r : FormattedLine) :
  is_endregion (snd e) = true -> all_blank bs -> is_region (snd r) = true ->
  exists tail,
    _cleanup_region_spacing (pre ++ e :: bs ++ r :: post)
    = Py.pop_while blank_line (_cleanup_region_spacing pre)
        ++ e :: repeat empty_line (2 - List.length bs) ++ bs ++ r :: tail.
Proof.
  intros E B R. unfold _cleanup_region_spacing.
  rewrite cleanup_loop_app_close by exact E.
  destruct e as [eno etext]. simpl in E.
  cbn [cleanup_loop]. rewrite E.
  rewrite lookahead_blanks_before_open,
    (blanks_before_open_all_blank bs r post B R).
  rewrite cleanup_loop_blanks by exact B.
  destruct r as [rno rtext]. simpl in R.
  cbn [cleanup_loop]. rewrite (region_not_endregion _ R).
  assert (X : blank_line (rno, rtext) = false)
    by (unfold blank_line; simpl; now apply region_not_blank).
  pose proof (fun c => cleanup_loop_keeps post c [] (rno, rtext) X) as K.
  match goal with
  | |- context [cleanup_loop post (?c ++ [_])] => destruct (K c) as [m' T]
  end.
  exists m'. etransitivity; [exact T|]. cbn [Nat.add].
  repeat rewrite <- app_assoc. reflexivity.
Qed.

End CleanupFacts.

(** C5, amended. After the cleanup no region-close line comes right after
    a blank line; a region-open line that is the first non-blank line after
    a region-close line is separated from it by two blank lines or more;
    the pass adds the [2 - k] blank lines missing from the [k] it finds
    between such a pair and removes none of them, so that [k <= 2] leaves
    exactly two and [k > 2] leaves [k]. *)
Theorem cleanup_region_spacing_at_least_two :
  forall lines : FormattedLines,
    (forall pre b e post,
        _cleanup_region_spacing lines = pre ++ b :: e :: post ->
        is_endregion (snd e) = true -> blank_line b = false)
    /\ (forall pre e bs r post,
          _cleanup_region_spacing lines = pre ++ e :: bs ++ r :: post ->
          is_endregion (snd e) = true -> all_blank bs ->
          is_region (snd r) = true ->
          2 <= List.length bs)
    /\ (forall pre e bs r post,
          lines = pre ++ e :: bs ++ r :: post ->
          is_endregion (snd e) = true -> all_blank bs ->
          is_region (snd r) = true ->
          exists tail,
            _cleanup_region_spacing lines
            = Py.pop_while blank_line (_cleanup_region_spacing pre)
                ++ e :: (repeat empty_line (2 - List.length bs) ++ bs)
                ++ r :: tail
            /\ all_blank (repeat empty_line (2 - List.length bs) ++ bs)
            /\ List.length (repeat empty_line (2 - List.length bs) ++ bs)
               = Nat.max 2 (List.length bs)).
Proof.
  intros lines.
  assert (HAB := CleanupFacts.cleanup_loop_invariant lines [] I I).
  destruct HAB as [HA HB]; [intros k j H; discriminate H|].
  fold (_cleanup_region_spacing lines) in HA, HB.
  split; [|split].
  - intros pre b e post Hout E.
    rewrite Hout, rev_app_distr in HA. simpl in HA.
    repeat rewrite <- app_assoc in HA. simpl in HA.
    exact (CleanupFacts.close_after_nonblank_at _ _ _ _ HA E).
  - intros pre e bs r post Hout E B R.
    rewrite Hout, rev_app_distr in HB. simpl in HB.
    rewrite rev_app_distr in HB. simpl in HB.
    repeat rewrite <- app_assoc in HB. simpl in HB.
    apply (CleanupFacts.open_after_two_at _ _ _ (List.length bs) HB R).
    rewrite <- (length_rev bs).
    apply CleanupFacts.blanks_over_close_all_blank; [|exact E].
    apply Forall_rev. exact B.
  - intros pre e bs r post -> E B R.
    destruct (CleanupFacts.cleanup_close_open pre bs post e r E B R)
      as [tail T].
    exists tail. split; [|split].
    + rewrite T. now rewrite <- app_assoc.
    + apply Forall_app. split; [|exact B].
      apply Forall_forall. intros x Hx.
      apply repeat_spec in Hx. now subst.
    + rewrite length_app, repeat_length. lia.
Qed.

(** C5 as stated fails: three blank lines between a region-close line and
    a region-open line are all kept, by the cleanup alone and by the three
    passes in a row, which hand synthetic lines on as they are. *)
Lemma cleanup_keeps_three_blank_lines :
  ~ (forall lines pre e bs r post,
        _cleanup_region_spacing lines = pre ++ e :: bs ++ r :: post ->
        is_endregion (snd e) = true -> all_blank bs ->
        is_region (snd r) = true ->
        List.length bs = 2)
  /\ ~ (forall lines inline standalone pre e bs r post,
          _cleanup_region_spacing
            (Sample.add_standalone (_add_inline_comments 2 lines inline)
               standalone tt)
          = pre ++ e :: bs ++ r :: post ->
          is_endregion (snd e) = true -> all_blank bs ->
          is_region (snd r) = true ->
          List.length bs = 2).
Proof.
  split; intros H.
  - specialize
      (H [(None, "#endregion"); empty_line; empty_line; empty_line;
          (None, "#region B")]
         [] (None, "#endregion") [empty_line; empty_line; empty_line]
         (None, "#region B") [] eq_refl eq_refl).
    discriminate H; [repeat constructor | reflexivity].
  - specialize
      (H [(Some 1, "var a"); (None, "#endregion"); empty_line; empty_line;
          empty_line; (None, "#region B"); (Some 7, "var b"); empty_line]
         [] []
         [(Some 1, "var a")] (None, "#endregion")
         [empty_line; empty_line; empty_line]
         (None, "#region B") [(Some 7, "var b"); empty_line]
         eq_refl eq_refl).
    discriminate H; [repeat constructor | reflexivity].
Qed.

Lemma cleanup_region_spacing_witness :
  blank_line (None, "var a") = false
  /\ 2 <= List.length [empty_line; empty_line]
  /\ exists tail,
       _cleanup_region_spacing
         [(None, "#endregion"); empty_line; (None, "#region B")]
       = Py.pop_while blank_line (_cleanup_region_spacing [])
           ++ (None, "#endregion")
           :: (repeat empty_line (2 - 1) ++ [empty_line])
           ++ (None, "#region B") :: tail
       /\ all_blank (repeat empty_line (2 - 1) ++ [empty_line])
       /\ List.length (repeat empty_line (2 - 1) ++ [empty_line])
          = Nat.max 2 1.
Proof.
  split; [|split].
  - apply (proj1 (cleanup_region_spacing_at_least_two
                    [(None, "var a"); empty_line; (None, "#endregion")])
             [] (None, "var a") (None, "#endregion") []);
      reflexivity.
  - apply (proj1 (proj2 (cleanup_region_spacing_at_least_two
                           [(None, "#endregion"); (None, "#region B")]))
             [] (None, "#endregion") [empty_line; empty_line]
             (None, "#region B") []);
      [reflexivity | reflexivity | repeat constructor | reflexivity].
  - apply (proj2 (proj2 (cleanup_region_spacing_at_least_two
                           [(None, "#endregion"); empty_line;
                            (None, "#region B")]))
             [] (None, "#endregion") [empty_line] (None, "#region B") []);
      [reflexivity | reflexivity | repeat constructor | reflexivity].
Defined.

(** ** Stripping *)

Module StripFacts.

Lemma rstrip_empty_lstrip (t s : string) :
  Py.rstrip t = "" -> Py.lstrip (t ++ s) = Py.lstrip s.
Proof.
  induction t as [|c t IH]; simpl; [reflexivity|].
  destruct (Py.rstrip t); [|discriminate].
  destruct (Py.isspace c); [intros _; now apply IH | discriminate].
Qed.

Lemma rstrip_cons_nonempty (c : ascii) (t : string) :
  Py.isspace c = false -> Py.rstrip (String c t) <> "".
Proof.
  intros H. simpl. destruct (Py.rstrip t); [now rewrite H | discriminate].
Qed.

(** Leading white space does not change what [strip] returns. *)
Lemma strip_blank_prefix (ws s : string) :
  is_blank ws = true -> Py.strip (ws ++ s) = Py.strip s.
Proof.
  unfold is_blank, Py.strip. intros B. f_equal.
  induction ws as [|c ws IH]; [reflexivity|].
  simpl in B |- *. destruct (Py.isspace c) eqn:C; [exact (IH B)|].
  apply String.eqb_eq in B.
  now apply rstrip_cons_nonempty in B.
Qed.

Lemma blank_append_right (a b : string) :
  is_blank (a ++ b) = true -> is_blank b = true.
Proof.
  unfold is_blank, Py.strip.
  induction a as [|c a IH]; [trivial|].
  simpl. destruct (Py.isspace c) eqn:C; [exact IH|].
  intros B. apply String.eqb_eq in B.
  now apply rstrip_cons_nonempty in B.
Qed.

(** A comment with a character that is not white space makes a non-blank
    line, whatever its indentation. *)
Lemma comment_line_nonblank (indent comment : string) :
  is_blank comment = false -> nonblank_line (comment_line indent comment) = true.
Proof.
  intros H. unfold nonblank_line, blank_line, comment_line. simpl.
  destruct (is_blank (indent ++ comment)) eqn:B; [|reflexivity].
  apply blank_append_right in B. congruence.
Qed.

End StripFacts.

(** ** The standalone-comment pass *)

Module SlotFacts.

Lemma firstn_slots (table : Comments) (i j : nat) :
  i <= j -> firstn i table ++ slots table i j = firstn j table.
Proof.
  intros H. unfold slots.
  rewrite firstn_skipn_comm.
  replace (i + (j - i)) with j by lia.
  rewrite <- (firstn_skipn i (firstn j table)) at 2.
  f_equal. rewrite firstn_firstn. f_equal. lia.
Qed.

Lemma slots_nil (table : Comments) (i j : nat) :
  j <= i -> slots table i j = [].
Proof.
  intros H. unfold slots. now replace (j - i) with 0 by lia.
Qed.

Lemma slice_of_remaining (table : Comments) (n cursor : nat)
    (anchor : option nat) :
  Py.slice n anchor (firstn cursor table)
  = standalone_claim table n cursor anchor.
Proof.
  unfold Py.slice, standalone_claim, slots. destruct anchor as [a|].
  - rewrite skipn_firstn_comm, firstn_firstn. f_equal. lia.
  - apply skipn_firstn_comm.
Qed.

(** What a claiming line takes from the remaining table. *)
Lemma remaining_split (table : Comments) (n cursor : nat)
    (anchor : option nat) :
  firstn cursor table
  = firstn (Nat.min n cursor) table
      ++ standalone_claim table n cursor anchor
      ++ standalone_skipped table n cursor anchor.
Proof.
  unfold standalone_claim, standalone_skipped.
  destruct (Nat.le_gt_cases cursor n) as [Hc|Hc].
  - rewrite Nat.min_r by exact Hc.
    destruct anchor as [a|]; rewrite ?slots_nil by lia;
      now rewrite ?app_nil_r.
  - rewrite Nat.min_l by lia. destruct anchor as [a|].
    + destruct (Nat.le_gt_cases a n) as [Ha|Ha].
      * rewrite (slots_nil table n) by lia. rewrite Nat.max_l by exact Ha.
        simpl. symmetry. apply firstn_slots. lia.
      * rewrite Nat.max_r by lia.
        destruct (Nat.le_gt_cases a cursor) as [Hac|Hac].
        -- rewrite Nat.min_l by exact Hac.
           rewrite app_assoc, firstn_slots by lia.
           symmetry. now apply firstn_slots.
        -- rewrite Nat.min_r by lia.
           rewrite (slots_nil table a) by lia.
           rewrite app_nil_r. symmetry. apply firstn_slots. lia.
    + rewrite app_nil_r. symmetry. apply firstn_slots. lia.
Qed.

Lemma not_none_app {A : Type} (l l' : list (option A)) :
  Py.not_none (l ++ l') = Py.not_none l ++ Py.not_none l'.
Proof.
  induction l as [|[x|] l IH]; simpl; [reflexivity | now rewrite IH | exact IH].
Qed.

Lemma not_none_rev {A : Type} (l : list (option A)) :
  Py.not_none (rev l) = rev (Py.not_none l).
Proof.
  induction l as [|[x|] l IH]; simpl; [reflexivity | |].
  - now rewrite not_none_app, IH.
  - now rewrite not_none_app, IH, app_nil_r.
Qed.

End SlotFacts.

Section StandaloneFacts.

Variable Pattern : Type.
Variable re_search : Pattern -> string -> option string.
Variable indent_regex : Pattern.

Local Abbreviation batch := (standalone_batch).
Local Abbreviation step := (standalone_step Pattern re_search indent_regex).
Local Abbreviation by_cursor :=
  (standalone_by_cursor Pattern re_search indent_regex).

(** A claimed batch changes the non-blank lines by exactly its non-empty
    comments, one line each. *)
Lemma filter_cons_app {A : Type} (f : A -> bool) (x : A) (l : list A) :
  filter f (x :: l) = filter f [x] ++ filter f l.
Proof. simpl. now destruct (f x). Qed.

Lemma filter_cons_if {A : Type} (f : A -> bool) (x : A) (l : list A) :
  filter f (x :: l) = (if f x then [x] else []) ++ filter f l.
Proof. simpl. now destruct (f x). Qed.

Lemma standalone_batch_nonblank (indent : string) (reversed_comments : Comments)
    (post : FormattedLines) :
  filter nonblank_line (batch indent reversed_comments post)
  = filter nonblank_line post
      ++ filter nonblank_line
           (map (comment_line indent) (Py.not_none reversed_comments)).
Proof.
  revert post.
  induction reversed_comments as [|[c|] rest IH]; intros post;
    cbn [standalone_batch Py.not_none map].
  - now rewrite app_nil_r.
  - fold (comment_line indent c). rewrite filter_cons_app.
    destruct (Py.startswith (Py.strip c) "#region").
    + rewrite IH, !filter_app.
      change (filter nonblank_line [empty_line]) with (@nil FormattedLine).
      now rewrite app_nil_l, <- app_assoc.
    + destruct (Py.startswith (Py.strip c) "#endregion").
      * assert (E : forall extra,
                   filter nonblank_line extra = [] ->
                   filter nonblank_line
                     ((Py.pop_while blank_line post ++ [comment_line indent c])
                        ++ extra)
                   = filter nonblank_line post
                       ++ filter nonblank_line [comment_line indent c]).
        { intros extra X.
          now rewrite !filter_app, CleanupFacts.filter_nonblank_pop, X,
            app_nil_r. }
        assert (E0 := E [] eq_refl). rewrite app_nil_r in E0.
        assert (E2 := E ([empty_line] ++ [empty_line]) eq_refl).
        rewrite IH.
        destruct rest as [|[next|] rest'];
          [| destruct (negb (String.eqb next "")
                       && Py.startswith (Py.strip next) "#region") |];
          rewrite (app_assoc (filter nonblank_line post)); f_equal;
          first [exact E0 | exact E2].
      * rewrite IH, filter_app. now rewrite <- app_assoc.
  - apply IH.
Qed.

Lemma last_text_snoc (post : FormattedLines) (no : option nat) (line : string) :
  last_text (post ++ [(no, line)]) = line.
Proof. unfold last_text. now rewrite last_last. Qed.

(** The state of the loop after the lines [lines] have been scanned. *)
Lemma standalone_scan_state (lines : FormattedLines) (table : Comments) :
  forall cursor inside anchor,
    standalone_scan lines (List.length table) = (cursor, inside, anchor) ->
    let st :=
      fold_left step (rev lines) (mkStandalone table [] false None) in
    remaining_comments st = firstn cursor table
    /\ currently_inside_expression st = inside
    /\ last_expression_line_no st = anchor
    /\ filter nonblank_line (rev (postprocessed_lines st))
       = filter nonblank_line (by_cursor lines table)
    /\ (inside = true ->
        postprocessed_lines st <> []
        /\ last_text (postprocessed_lines st) = first_text lines).
Proof.
  induction lines as [|[no line] rest IH]; intros cursor inside anchor.
  - simpl. intros [= <- <- <-]. rewrite firstn_all.
    split; [reflexivity|]. split; [reflexivity|]. split; [reflexivity|].
    split; [reflexivity | discriminate].
  - cbn [standalone_scan standalone_by_cursor rev].
    destruct (standalone_scan rest (List.length table)) as [[c i] a].
    specialize (IH c i a eq_refl). cbv zeta in IH.
    rewrite fold_left_app. cbn [fold_left].
    set (st := fold_left step (rev rest) (mkStandalone table [] false None))
      in *.
    destruct IH as (Hrem & Hin & Hlast & Hlines & Hpost).
    destruct no as [n|].
    + unfold standalone_step. rewrite Hin. destruct i; cbn [negb].
      * intros [= <- <- <-]. cbn [remaining_comments postprocessed_lines
          currently_inside_expression last_expression_line_no].
        destruct (Hpost eq_refl) as [_ Htext].
        rewrite Hrem, Hlast, Htext.
        unfold Py.slice_to. rewrite firstn_firstn.
        rewrite SlotFacts.slice_of_remaining.
        split; [reflexivity|]. split; [reflexivity|]. split; [reflexivity|].
        split; [|intros _; split].
        -- rewrite rev_app_distr. cbn [rev app].
           rewrite !(filter_cons_if _ (Some n, line)). f_equal.
           rewrite filter_rev, standalone_batch_nonblank.
           rewrite rev_app_distr, <- !filter_rev, Hlines, filter_app.
           f_equal. rewrite SlotFacts.not_none_rev, map_rev.
           now rewrite rev_involutive.
        -- intros X. apply app_eq_nil in X. destruct X as [_ X].
           discriminate X.
        -- apply last_text_snoc.
      * intros [= <- <- <-]. cbn [remaining_comments postprocessed_lines
          currently_inside_expression last_expression_line_no].
        split; [exact Hrem|]. split; [reflexivity|]. split; [reflexivity|].
        split; [|intros _; split].
        -- rewrite rev_app_distr. cbn [rev app].
           rewrite !(filter_cons_if _ (Some n, line)). f_equal.
           exact Hlines.
        -- intros X. apply app_eq_nil in X. destruct X as [_ X].
           discriminate X.
        -- apply last_text_snoc.
    + intros [= <- <- <-]. unfold standalone_step.
      cbn [remaining_comments postprocessed_lines
        currently_inside_expression last_expression_line_no].
      split; [exact Hrem|]. split; [reflexivity|]. split; [exact Hlast|].
      split; [|discriminate].
      rewrite rev_app_distr. cbn [rev app].
      rewrite !(filter_cons_if _ (@None nat, line)). f_equal. exact Hlines.
Qed.

Lemma standalone_inside_last (lines : FormattedLines) (table : Comments) :
  let st := fold_left step (rev lines) (mkStandalone table [] false None) in
  currently_inside_expression st = true ->
  postprocessed_lines st <> []
  /\ last_text (postprocessed_lines st) = first_text lines.
Proof.
  destruct (standalone_scan lines (List.length table)) as [[c i] a] eqn:E.
  destruct (standalone_scan_state lines table c i a E)
    as (_ & Hin & _ & _ & Hpost).
  intros st H. apply Hpost. now rewrite <- Hin.
Qed.

Lemma add_standalone_nonblank (lines : FormattedLines) (table : Comments) :
  filter nonblank_line
    (_add_standalone_comments Pattern re_search lines table indent_regex)
  = filter nonblank_line (by_cursor lines table).
Proof.
  destruct (standalone_scan lines (List.length table)) as [[c i] a] eqn:E.
  destruct (standalone_scan_state lines table c i a E)
    as (_ & _ & _ & Hlines & _).
  exact Hlines.
Qed.

(** Every slot of the table is, in order, below the final cursor, claimed
    by one line, or skipped by one line. *)
Lemma standalone_claims_partition (lines : FormattedLines) (table : Comments) :
  table
  = firstn (fst (fst (standalone_scan lines (List.length table)))) table
      ++ List.concat (map (fun p => fst p ++ snd p)
                   (standalone_claims lines table)).
Proof.
  induction lines as [|[[n|] line] rest IH];
    cbn [standalone_scan standalone_claims map List.concat].
  - simpl. now rewrite firstn_all, app_nil_r.
  - destruct (standalone_scan rest (List.length table)) as [[c i] a].
    cbn [fst] in IH. destruct i; cbn [fst snd].
    + cbn [map List.concat fst snd].
      rewrite app_assoc, <- SlotFacts.remaining_split. exact IH.
    + exact IH.
  - destruct (standalone_scan rest (List.length table)) as [[c i] a].
    exact IH.
Qed.

End StandaloneFacts.

Lemma inline_claims_partition (lines : FormattedLines) (table : Comments) :
  table
  = firstn (inline_cursor lines (List.length table)) table
      ++ List.concat (inline_claims lines table).
Proof.
  induction lines as [|[[n|] line] rest IH];
    cbn [inline_cursor inline_claims List.concat].
  - simpl. now rewrite firstn_all, app_nil_r.
  - rewrite app_assoc.
    set (c := inline_cursor rest (List.length table)) in *.
    destruct (Nat.le_gt_cases c n) as [H|H].
    + rewrite Nat.min_r, SlotFacts.slots_nil, app_nil_r by lia. exact IH.
    + rewrite Nat.min_l, SlotFacts.firstn_slots by lia. exact IH.
  - exact IH.
Qed.

(** ** [format_code] *)

Section FormatCodeFacts.

Variable INLINE_COMMENT_OFFSET : nat.
Variable Pattern : Type.
Variable re_search : Pattern -> string -> option string.
Variable TAB_INDENT_SIZE : nat.
Variable EmptyLinesTable : Type.
Variable GLOBAL_SCOPE_SURROUNDING_EMPTY_LINES_TABLE : EmptyLinesTable.
Variable Context : Type.
Variable mkContext :
  forall (single_indent_size : nat) (single_indent_string : string)
         (previously_processed_line_number max_line_length : nat)
         (gdscript_code_lines : list string)
         (standalone_comments inline_comments : Comments), Context.
Variable inline_comments : Context -> Comments.
Variable standalone_comments : Context -> Comments.
Variable indent_regex : Context -> Pattern.
Variable indent_string : Context -> string.
Variable create_child_context : Context -> nat -> Context.
Variable ExpressionContext : Type.
Variable mkExpressionContext :
  string -> nat -> string -> nat -> ExpressionContext.
Variable parser_parse : string -> Result Node.
Variable parser_parse_comments : string -> Result Node.
Variable gather_standalone_comments : string -> Node -> Result Comments.
Variable gather_inline_comments : string -> Node -> Result Comments.
Variable splitlines : string -> list string.
Variable format_block :
  list Node -> (Node -> Context -> Result Outcome) -> Context ->
  option EmptyLinesTable -> Result Outcome.
Variable format_func_statement : Node -> Context -> Result Outcome.
Variable format_simple_statement : string -> Node -> Context -> Result Outcome.
Variable format_var_statement : Node -> Context -> Result Outcome.
Variable expression_to_str : Node -> Result string.
Variable format_expression :
  Node -> ExpressionContext -> Context -> Result Outcome.
Variable format_concrete_expression :
  Node -> ExpressionContext -> Context -> Result Outcome.
Variable recursion_limit : nat.

Local Abbreviation run :=
  (format_code INLINE_COMMENT_OFFSET Pattern re_search TAB_INDENT_SIZE
     EmptyLinesTable GLOBAL_SCOPE_SURROUNDING_EMPTY_LINES_TABLE Context
     mkContext inline_comments standalone_comments indent_regex
     indent_string create_child_context ExpressionContext
     mkExpressionContext parser_parse parser_parse_comments
     gather_standalone_comments gather_inline_comments splitlines
     format_block format_func_statement format_simple_statement
     format_var_statement expression_to_str format_expression
     format_concrete_expression recursion_limit).
Local Abbreviation dispatcher :=
  (format_class_statement Context indent_string create_child_context
     ExpressionContext mkExpressionContext
     EmptyLinesTable format_block format_func_statement
     format_simple_statement format_var_statement expression_to_str
     format_expression format_concrete_expression recursion_limit).

Variable gdscript_code : string.
Variable max_line_length : nat.
Variable spaces_for_indent : option nat.
Variables parse_tree comment_parse_tree : Node.
Variables standalone inline : Comments.
Variable statements : list Node.

Hypothesis gathered_standalone :
  gather_standalone_comments gdscript_code comment_parse_tree = Ok standalone.
Hypothesis gathered_inline :
  gather_inline_comments gdscript_code comment_parse_tree = Ok inline.
Hypothesis top_level : Lark.children parse_tree = Ok statements.

Local Abbreviation context :=
  (mkContext
     match spaces_for_indent with None => TAB_INDENT_SIZE | Some n => n end
     match spaces_for_indent with
     | None => String "009" EmptyString
     | Some n => Py.mul " " n
     end
     0 max_line_length ("" :: splitlines gdscript_code) standalone inline).

(** The text returned is the lines of the block driver, a blank line
    appended, taken through the three passes and joined with newlines. *)
Lemma format_code_pipeline (lines : FormattedLines) (last : nat) :
  format_block statements dispatcher context
    (Some GLOBAL_SCOPE_SURROUNDING_EMPTY_LINES_TABLE) = Ok (lines, last) ->
  run gdscript_code max_line_length spaces_for_indent
    (Some parse_tree) (Some comment_parse_tree)
  = Ok (Py.join (String "010" EmptyString)
          (map snd
             (_cleanup_region_spacing
                (_add_standalone_comments Pattern re_search
                   (_add_inline_comments INLINE_COMMENT_OFFSET
                      (lines ++ [empty_line]) (inline_comments context))
                   (standalone_comments context) (indent_regex context))))).
Proof.
  intros H. unfold format_code. cbn [bind].
  rewrite gathered_standalone, gathered_inline. cbn [bind].
  rewrite top_level. cbn [bind]. now rewrite H.
Qed.

(** An exception that leaves the block driver, a dispatch error among
    them, leaves [format_code]: no text is returned. *)
Lemma format_code_raises (e : Exception) :
  format_block statements dispatcher context
    (Some GLOBAL_SCOPE_SURROUNDING_EMPTY_LINES_TABLE) = Raise e ->
  run gdscript_code max_line_length spaces_for_indent
    (Some parse_tree) (Some comment_parse_tree)
  = Raise e.
Proof.
  intros H. unfold format_code. cbn [bind].
  rewrite gathered_standalone, gathered_inline. cbn [bind].
  rewrite top_level. cbn [bind]. now rewrite H.
Qed.

End FormatCodeFacts.

(** X17. The inline pass joins to every numbered line the non-empty
    inline slots it claims; the claimed ranges, in document order, make up
    the inline table from the final cursor on, so that every slot at or
    above the cursor is claimed once and no slot below it is emitted.  The standalone pass and the cleanup change the non-blank
    lines only by putting, after each line reached inside a run of
    numbered lines, the non-empty standalone slots that line claims, each
    once and on a line of its own; the standalone table is, in order, the
    slots below the final cursor and then, line by line, the slots claimed
    and the slots skipped, and neither the former nor the skipped ones are
    emitted.  A comment that is not white space only makes a non-blank
    line. *)
Theorem comment_passes_emit_claimed_slots :
  forall (offset : nat) (Pattern : Type)
         (re_search : Pattern -> string -> option string)
         (indent_regex : Pattern)
         (lines : FormattedLines) (inline standalone : Comments),
    let numbered := _add_inline_comments offset lines inline in
    numbered = inline_by_cursor offset lines inline
    /\ inline
       = firstn (inline_cursor lines (List.length inline)) inline
           ++ List.concat (inline_claims lines inline)
    /\ filter nonblank_line
         (_cleanup_region_spacing
            (_add_standalone_comments Pattern re_search numbered standalone
               indent_regex))
       = filter nonblank_line
           (standalone_by_cursor Pattern re_search indent_regex numbered
              standalone)
    /\ standalone
       = firstn (fst (fst (standalone_scan numbered
                             (List.length standalone)))) standalone
           ++ List.concat (map (fun p => fst p ++ snd p)
                             (standalone_claims numbered standalone))
    /\ (forall indent comment,
          is_blank comment = false ->
          nonblank_line (comment_line indent comment) = true).
Proof.
  intros offset Pattern re_search indent_regex lines inline standalone
    numbered.
  split; [apply add_inline_by_cursor|].
  split; [apply inline_claims_partition|].
  split; [|split;
            [apply standalone_claims_partition
            |apply StripFacts.comment_line_nonblank]].
  unfold _cleanup_region_spacing.
  rewrite CleanupFacts.cleanup_loop_nonblank. simpl.
  apply add_standalone_nonblank.
Qed.

Lemma comment_passes_emit_claimed_slots_witness :
  nonblank_line (comment_line Sample.TAB "# c") = true.
Proof.
  apply (proj2 (proj2 (proj2 (proj2
           (comment_passes_emit_claimed_slots 2 unit Sample.tabs_search tt
              [(Some 1, "var a = ["); (Some 3, "]"); (None, "")]
              [None; None; None; None]
              [None; None; Some "# c"; None]))))
           Sample.TAB "# c" eq_refl).
Defined.

(** C3 at its failing input: the blank line of a region-open comment
    comes after the comment in the returned lines, not before it; this
    holds of every batch that ends with such a comment. *)
Theorem standalone_region_open_blank_follows :
  Sample.add_standalone
    [(Some 1, "var a = ["); (Some 3, (Sample.TAB ++ "1,")%string);
     (Some 4, "]"); (None, "")]
    [None; None; Some "#region A"; None; None] tt
  = [(Some 1, "var a = [");
     (None, (Sample.TAB ++ "#region A")%string);
     (None, "");
     (Some 3, (Sample.TAB ++ "1,")%string); (Some 4, "]"); (None, "")]
  /\ forall indent comment post,
       is_region comment = true ->
       rev (standalone_batch indent [Some comment] post)
       = comment_line indent comment :: empty_line :: rev post.
Proof.
  split; [reflexivity|].
  intros indent comment post R. unfold is_region in R.
  cbn [standalone_batch]. rewrite R.
  now rewrite !rev_app_distr.
Qed.

(** C4 at its failing input: the region-close comment keeps three blank
    lines before it and gets none after it, although a region-open comment
    follows it in the batch.  In every batch the blank lines removed are
    those that follow the region-close comment in the returned lines, and
    the two blank lines are put before it, when the comment before it is a
    region-open comment. *)
Theorem standalone_region_close_blanks_misplaced :
  Sample.add_standalone
    [(Some 1, "var a = ["); (Some 5, (Sample.TAB ++ "1,")%string);
     (Some 6, "]"); (None, "")]
    [None; None; Some "#region A"; Some "#endregion"; Some "#region B";
     None; None] tt
  = [(Some 1, "var a = [");
     (None, (Sample.TAB ++ "#region A")%string);
     (None, ""); (None, ""); (None, "");
     (None, (Sample.TAB ++ "#endregion")%string);
     (None, (Sample.TAB ++ "#region B")%string);
     (None, "");
     (Some 5, (Sample.TAB ++ "1,")%string); (Some 6, "]"); (None, "")]
  /\ (forall indent comment post,
        is_endregion comment = true ->
        rev (standalone_batch indent [Some comment] post)
        = comment_line indent comment :: drop_while blank_line (rev post))
  /\ (forall indent comment previous post,
        is_endregion comment = true -> is_region previous = true ->
        rev (standalone_batch indent [Some comment; Some previous] post)
        = comment_line indent previous
            :: empty_line :: empty_line :: empty_line
            :: comment_line indent comment
            :: drop_while blank_line (rev post)).
Proof.
  split; [reflexivity|]. split.
  - intros indent comment post E.
    pose proof (MarkerFacts.endregion_not_region _ E) as R.
    unfold is_endregion in E. unfold is_region in R.
    cbn [standalone_batch]. rewrite R, E.
    rewrite rev_app_distr, MarkerFacts.pop_while_rev. reflexivity.
  - intros indent comment previous post E P.
    pose proof (MarkerFacts.endregion_not_region _ E) as R.
    assert (N : String.eqb previous "" = false).
    { destruct previous; [discriminate P | reflexivity]. }
    unfold is_endregion in E. unfold is_region in R, P.
    cbn [standalone_batch]. rewrite R, E, N, P. cbn [negb andb].
    rewrite !rev_app_distr, MarkerFacts.pop_while_rev. reflexivity.
Qed.

Lemma standalone_region_close_blanks_misplaced_witness :
  rev (standalone_batch Sample.TAB [Some "#endregion"]
         [(Some 5, "1,"); empty_line])
  = [comment_line Sample.TAB "#endregion"; (Some 5, "1,")]
  /\ rev (standalone_batch Sample.TAB [Some "#endregion"; Some "#region A"]
            [(Some 5, "1,")])
     = [comment_line Sample.TAB "#region A"; empty_line; empty_line;
        empty_line; comment_line Sample.TAB "#endregion"; (Some 5, "1,")].
Proof.
  split.
  - apply (proj1 (proj2 standalone_region_close_blanks_misplaced)
             Sample.TAB "#endregion" [(Some 5, "1,"); empty_line] eq_refl).
  - apply (proj2 (proj2 standalone_region_close_blanks_misplaced)
             Sample.TAB "#endregion" "#region A" [(Some 5, "1,")]
             eq_refl eq_refl).
Defined.

(** The same lines after the cleanup: the blank lines before the
    region-close comment are gone and two separate it from the region-open
    comment. *)
Example two_regions_after_cleanup :
  _cleanup_region_spacing
    (Sample.add_standalone
       [(Some 1, "var a = ["); (Some 5, (Sample.TAB ++ "1,")%string);
        (Some 6, "]"); (None, "")]
       [None; None; Some "#region A"; Some "#endregion"; Some "#region B";
        None; None] tt)
  = [(Some 1, "var a = [");
     (None, (Sample.TAB ++ "#region A")%string);
     (None, (Sample.TAB ++ "#endregion")%string);
     (None, ""); (None, "");
     (None, (Sample.TAB ++ "#region B")%string);
     (None, "");
     (Some 5, (Sample.TAB ++ "1,")%string); (Some 6, "]"); (None, "")].
Proof. reflexivity. Qed.

(** ** The class-statement dispatcher *)

Module DictFacts.

Lemma dict_get_in {V : Type} (d : list (string * V)) (k : string) (v : V) :
  dict_get d k = Some v -> In (k, v) d.
Proof.
  induction d as [|[k' v'] d IH]; simpl; [discriminate|].
  destruct (String.eqb_spec k' k) as [->|ne].
  - intros [= ->]. now left.
  - intros H. right. exact (IH H).
Qed.

Lemma dict_get_unique {V : Type} (d : list (string * V)) (k : string) (v : V) :
  NoDup (map fst d) -> In (k, v) d -> dict_get d k = Some v.
Proof.
  induction d as [|[k' v'] d IH]; simpl; [contradiction|].
  intros N [H|H].
  - injection H as -> ->. now rewrite String.eqb_refl.
  - inversion N as [|? ? Hk Hd]; subst.
    destruct (String.eqb_spec k' k) as [->|ne]; [|exact (IH Hd H)].
    elim Hk. apply (in_map fst) in H. exact H.
Qed.

Lemma dict_get_none {V : Type} (d : list (string * V)) (k : string) :
  dict_get d k = None <-> ~ In k (map fst d).
Proof.
  induction d as [|[k' v'] d IH]; simpl; [tauto|].
  destruct (String.eqb_spec k' k) as [->|ne].
  - split; [discriminate | intros H; elim H; now left].
  - rewrite IH. tauto.
Qed.

Lemma dict_get_some {V : Type} (d : list (string * V)) (k : string) :
  In k (map fst d) -> exists v, dict_get d k = Some v.
Proof.
  intros H. destruct (dict_get d k) as [v|] eqn:E; [now exists v|].
  apply dict_get_none in E. contradiction.
Qed.

End DictFacts.

Section ClassStatementFacts.

Variable Context : Type.
Variable indent_string : Context -> string.
Variable create_child_context : Context -> nat -> Context.
Variable ExpressionContext : Type.
Variable mkExpressionContext :
  string -> nat -> string -> nat -> ExpressionContext.
Variable EmptyLinesTable : Type.
Variable format_block :
  list Node -> (Node -> Context -> Result Outcome) -> Context ->
  option EmptyLinesTable -> Result Outcome.
Variable format_func_statement : Node -> Context -> Result Outcome.
Variable format_simple_statement : string -> Node -> Context -> Result Outcome.
Variable format_var_statement : Node -> Context -> Result Outcome.
Variable expression_to_str : Node -> Result string.
Variable format_expression :
  Node -> ExpressionContext -> Context -> Result Outcome.
Variable format_concrete_expression :
  Node -> ExpressionContext -> Context -> Result Outcome.

Local Abbreviation dispatch :=
  (format_class_statement Context indent_string create_child_context
     ExpressionContext mkExpressionContext
     EmptyLinesTable format_block format_func_statement
     format_simple_statement format_var_statement expression_to_str
     format_expression format_concrete_expression).
Local Abbreviation table :=
  (handlers Context indent_string create_child_context ExpressionContext mkExpressionContext EmptyLinesTable
     format_block format_func_statement format_simple_statement
     format_var_statement expression_to_str format_expression
     format_concrete_expression).
Local Abbreviation const_statement :=
  (_format_const_statement Context ExpressionContext mkExpressionContext
     format_expression).

(** One call of the dispatcher on a tree: the tag is read and looked up. *)
Ltac enter_dispatch :=
  cbn [format_class_statement]; unfold dispatch_class_statement;
  cbn [Lark.data bind].

(** The keys of the dict literal, whatever the dispatcher passed to the
    handlers. *)
Lemma handlers_keys (self : Node -> Context -> Result Outcome) :
  map fst (table self)
  = ["pass_stmt"; "enum_stmt"; "signal_stmt"; "extends_stmt";
     "classname_stmt"; "classname_extends_stmt"; "class_var_stmt";
     "const_stmt"; "class_def"; "func_def"; "static_func_def"].
Proof. reflexivity. Qed.

Lemma handlers_keys_nodup (self : Node -> Context -> Result Outcome) :
  NoDup (map fst (table self)).
Proof.
  rewrite handlers_keys.
  repeat (constructor;
          [simpl; intros H;
           repeat (destruct H as [H|H]; [discriminate H|]); exact H|]).
  constructor.
Qed.

(** C7. A static-function statement renders its first child with the same
    context and the same dispatcher, one call deeper; of the Outcome it
    gets, it replaces the text of the first line by the context's indent
    string, then ["static "], then the stripped text, and returns the
    source number of that line, the other lines and the last line
    consumed as they are.  When the child's first line is [func foo():]
    after white space, the first line returned is the indent string
    followed by [static func foo():]. *)
Theorem static_func_rewrites_first_line :
  forall (depth : nat) (child : Node) (rest : list Node) (ln eln : nat)
         (context : Context) (first_line_no : option nat)
         (first_line : string) (lines : FormattedLines) (last : nat),
    dispatch depth child context
    = Ok ((first_line_no, first_line) :: lines, last) ->
    dispatch (S depth) (Tree "static_func_def" (child :: rest) ln eln) context
    = Ok ((first_line_no,
           (indent_string context ++ "static " ++ Py.strip first_line)%string)
            :: lines, last)
    /\ forall ws,
         is_blank ws = true ->
         first_line = (ws ++ "func foo():")%string ->
         dispatch (S depth) (Tree "static_func_def" (child :: rest) ln eln)
           context
         = Ok ((first_line_no,
                (indent_string context ++ "static func foo():")%string)
                 :: lines, last).
Proof.
  intros depth child rest ln eln context first_line_no first_line lines last
    H.
  assert (E : dispatch (S depth)
                (Tree "static_func_def" (child :: rest) ln eln) context
              = Ok ((first_line_no,
                     (indent_string context ++ "static "
                      ++ Py.strip first_line)%string) :: lines, last)).
  { enter_dispatch. cbn [handlers dict_get String.eqb Ascii.eqb Bool.eqb].
    unfold _format_child_and_prepend_to_outcome.
    cbn [Lark.children bind index nth_error]. rewrite H.
    reflexivity. }
  split; [exact E|].
  intros ws B ->. rewrite E.
  now rewrite (StripFacts.strip_blank_prefix ws _ B).
Qed.

(** C8. A const statement with four children takes the prefix
    [const X = ], with five [const X := ], with six [const X: T = ], where
    [X] and [T] are the values of its second and fourth children; with any
    other number of children no prefix is bound.  In the three cases the
    last child goes to the expression formatter with that prefix, the
    statement's first line, an empty suffix and the statement's last line,
    and the dispatcher does the same on the tag [const_stmt]; with an
    expression formatter that renders indent, prefix, [1] and suffix on
    one line, the three declarations come out as [const X = 1],
    [const X := 1] and [const X: int = 1]. *)
Theorem const_statement_three_prefixes :
  forall (tag : string) (ln eln : nat) (context : Context),
    (forall c0 t1 name c2 e,
        const_statement (Tree tag [c0; Token t1 name; c2; e] ln eln) context
        = format_expression e
            (mkExpressionContext ("const " ++ name ++ " = ")%string ln "" eln)
            context)
    /\ (forall c0 t1 name c2 c3 e,
          const_statement (Tree tag [c0; Token t1 name; c2; c3; e] ln eln)
            context
          = format_expression e
              (mkExpressionContext ("const " ++ name ++ " := ")%string
                 ln "" eln)
              context)
    /\ (forall c0 t1 name c2 t3 type_name c4 e,
          const_statement
            (Tree tag [c0; Token t1 name; c2; Token t3 type_name; c4; e]
               ln eln) context
          = format_expression e
              (mkExpressionContext
                 ("const " ++ name ++ ": " ++ type_name ++ " = ")%string
                 ln "" eln)
              context)
    /\ (forall cs,
          List.length cs <> 4 -> List.length cs <> 5 ->
          List.length cs <> 6 ->
          const_statement (Tree tag cs ln eln) context
          = Raise UnboundLocalError)
    /\ (forall depth cs,
          dispatch (S depth) (Tree "const_stmt" cs ln eln) context
          = const_statement (Tree "const_stmt" cs ln eln) context)
    /\ (forall e,
          (forall prefix prefix_line suffix suffix_line,
              format_expression e
                (mkExpressionContext prefix prefix_line suffix suffix_line)
                context
              = Ok ([(Some prefix_line,
                      (indent_string context ++ prefix ++ "1"
                       ++ suffix)%string)],
                    suffix_line)) ->
          const_statement
            (Tree tag [Token "CONST" "const"; Token "NAME" "X";
                       Token "EQUAL" "="; e] ln eln) context
          = Ok ([(Some ln, (indent_string context ++ "const X = 1")%string)],
                eln)
          /\ const_statement
               (Tree tag [Token "CONST" "const"; Token "NAME" "X";
                          Token "COLON" ":"; Token "EQUAL" "="; e] ln eln)
               context
             = Ok ([(Some ln,
                     (indent_string context ++ "const X := 1")%string)],
                   eln)
          /\ const_statement
               (Tree tag [Token "CONST" "const"; Token "NAME" "X";
                          Token "COLON" ":"; Token "TYPE" "int";
                          Token "EQUAL" "="; e] ln eln)
               context
             = Ok ([(Some ln,
                     (indent_string context ++ "const X: int = 1")%string)],
                   eln)).
Proof.
  intros tag ln eln context.
  split; [reflexivity|]. split; [reflexivity|]. split; [reflexivity|].
  split; [|split].
  - intros cs H4 H5 H6. unfold _format_const_statement.
    cbn [Lark.children bind].
    destruct (Nat.eqb_spec (List.length cs) 4); [contradiction|].
    destruct (Nat.eqb_spec (List.length cs) 5); [contradiction|].
    destruct (Nat.eqb_spec (List.length cs) 6); [contradiction|].
    reflexivity.
  - reflexivity.
  - intros e H. unfold _format_const_statement.
    cbn [Lark.children Lark.line Lark.end_line Lark.value bind index
      nth_error index_last rev app List.length Nat.eqb].
    rewrite !H. split; [reflexivity|]. split; reflexivity.
Qed.

(** C9. On a statement whose tag is a key of the handler table the
    dispatcher calls the one handler the table holds for that key and
    returns what it returns; on any other tag it raises [KeyError] and
    returns no Outcome; the lookup fails exactly on the tags that are not
    keys. *)
Theorem class_statement_dispatch :
  forall (depth : nat) (tag : string) (cs : list Node) (ln eln : nat)
         (context : Context),
    (In tag (map fst (table (dispatch depth))) ->
     exists handler,
       dict_get (table (dispatch depth)) tag = Some handler
       /\ (forall h, In (tag, h) (table (dispatch depth)) -> h = handler)
       /\ dispatch (S depth) (Tree tag cs ln eln) context
          = handler (Tree tag cs ln eln) context)
    /\ (~ In tag (map fst (table (dispatch depth))) ->
        dispatch (S depth) (Tree tag cs ln eln) context
        = Raise (KeyError tag))
    /\ (dict_get (table (dispatch depth)) tag = None
        <-> ~ In tag (map fst (table (dispatch depth)))).
Proof.
  intros depth tag cs ln eln context.
  split; [|split].
  - intros H. destruct (DictFacts.dict_get_some _ _ H) as [handler E].
    exists handler. split; [exact E|]. split.
    + intros h Hh.
      apply (DictFacts.dict_get_unique _ _ _ (handlers_keys_nodup _)) in Hh.
      congruence.
    + enter_dispatch. now rewrite E.
  - intros H. apply DictFacts.dict_get_none in H.
    enter_dispatch. now rewrite H.
  - apply DictFacts.dict_get_none.
Qed.

End ClassStatementFacts.

Lemma static_func_rewrites_first_line_witness :
  Sample.class_statement 2 Sample.static_func_foo ""
  = Ok ([(Some 1, "static func foo():");
         (Some 2, (Sample.TAB ++ "pass")%string)], 2).
Proof.
  apply (proj2
           (static_func_rewrites_first_line
              Sample.Context Sample.indent_string Sample.create_child_context
              Sample.ExpressionContext Sample.mkExpressionContext
              unit Sample.format_block Sample.format_func_statement
              Sample.format_simple_statement Sample.format_var_statement
              Sample.expression_to_str Sample.format_expression
              Sample.format_expression
              1
              (Tree "func_def"
                 [Tree "func_header"
                    [Token "NAME" "foo"; Tree "func_args" [] 1 1] 1 1;
                  Tree "pass_stmt" [] 2 2] 1 2)
              [] 1 2 "" (Some 1) "func foo():"
              [(Some 2, (Sample.TAB ++ "pass")%string)] 2 eq_refl)
           "" eq_refl eq_refl).
Defined.

Lemma const_statement_three_prefixes_witness :
  Sample.const_statement (Tree "const_stmt" [Token "CONST" "const"] 1 1) ""
  = Raise UnboundLocalError
  /\ Sample.const_statement Sample.const_untyped ""
     = Ok ([(Some 1, "const X = 1")], 1)
  /\ Sample.const_statement Sample.const_inferred ""
     = Ok ([(Some 1, "const X := 1")], 1)
  /\ Sample.const_statement Sample.const_typed ""
     = Ok ([(Some 1, "const X: int = 1")], 1).
Proof.
  pose proof
    (const_statement_three_prefixes
       Sample.Context Sample.indent_string Sample.create_child_context
       Sample.ExpressionContext Sample.mkExpressionContext
       unit Sample.format_block Sample.format_func_statement
       Sample.format_simple_statement Sample.format_var_statement
       Sample.expression_to_str Sample.format_expression
       Sample.format_expression "const_stmt" 1 1 "")
    as (_ & _ & _ & Hunbound & _ & Hformat).
  split.
  - apply (Hunbound [Token "CONST" "const"]); discriminate.
  - apply (Hformat (Token "NUMBER" "1")). reflexivity.
Defined.

Lemma class_statement_dispatch_witness :
  (exists handler,
      dict_get (Sample.class_handlers (Sample.class_statement 0)) "pass_stmt"
      = Some handler
      /\ (forall h,
             In ("pass_stmt", h)
               (Sample.class_handlers (Sample.class_statement 0)) ->
             h = handler)
      /\ Sample.class_statement 1 (Tree "pass_stmt" [] 1 1) ""
         = handler (Tree "pass_stmt" [] 1 1) "")
  /\ Sample.class_statement 1 (Tree "match_stmt" [] 1 1) ""
     = Raise (KeyError "match_stmt").
Proof.
  split.
  - apply (proj1
             (class_statement_dispatch
                Sample.Context Sample.indent_string
                Sample.create_child_context Sample.ExpressionContext
                Sample.mkExpressionContext unit Sample.format_block
                Sample.format_func_statement Sample.format_simple_statement
                Sample.format_var_statement Sample.expression_to_str
                Sample.format_expression Sample.format_expression
                0 "pass_stmt" [] 1 1 "")).
    simpl. auto.
  - apply (proj1
             (proj2
                (class_statement_dispatch
                   Sample.Context Sample.indent_string
                   Sample.create_child_context Sample.ExpressionContext
                Sample.mkExpressionContext unit Sample.format_block
                   Sample.format_func_statement
                   Sample.format_simple_statement
                   Sample.format_var_statement Sample.expression_to_str
                   Sample.format_expression Sample.format_expression
                   0 "match_stmt" [] 1 1 ""))).
    simpl. intros H.
    repeat (destruct H as [H|H]; [discriminate H|]). exact H.
Defined.

Lemma standalone_region_open_blank_follows_witness :
  rev (standalone_batch Sample.TAB [Some "#region A"]
         [(Some 3, (Sample.TAB ++ "1,")%string)])
  = [comment_line Sample.TAB "#region A"; empty_line;
     (Some 3, (Sample.TAB ++ "1,")%string)].
Proof.
  apply (proj2 standalone_region_open_blank_follows
           Sample.TAB "#region A" [(Some 3, (Sample.TAB ++ "1,")%string)]
           eq_refl).
Defined.

(** * Further properties *)

(** ** More on the region-spacing cleanup *)

Module CleanupMore.

Import MarkerFacts CleanupFacts.

Lemma pop_while_keeps {A : Type} (p : A -> bool) (c : list A) :
  match rev c with
  | b :: _ => p b = false
  | [] => True
  end ->
  Py.pop_while p c = c.
Proof.
  intros H. rewrite <- (rev_involutive (Py.pop_while p c)), pop_while_rev.
  destruct (rev c) as [|b t] eqn:E.
  - simpl. apply (f_equal (@rev A)) in E. rewrite rev_involutive in E.
    now subst.
  - simpl. rewrite H, <- E. apply rev_involutive.
Qed.

Lemma blanks_before_open_split (l : FormattedLines) (j : nat) :
  blanks_before_open l = Some j ->
  exists bs r rest,
    l = bs ++ r :: rest /\ all_blank bs /\ is_region (snd r) = true
    /\ List.length bs = j.
Proof.
  revert j. induction l as [|x l IH]; intros j; cbn [blanks_before_open];
    [discriminate|].
  destruct (blank_line x) eqn:B.
  - destruct (blanks_before_open l) as [k|]; [|discriminate].
    intros [= <-]. destruct (IH k eq_refl) as (bs & r & rest & -> & Hb & R & L).
    exists (x :: bs), r, rest. repeat split; auto.
    + now constructor.
    + simpl. now rewrite L.
  - destruct (is_region (snd x)) eqn:R; [|discriminate].
    intros [= <-]. exists [], x, l. repeat split; auto. constructor.
Qed.

(** Lines that already meet the two spacing conditions go through the
    scan as they are. *)
Lemma cleanup_loop_fixed (l c : FormattedLines) :
  close_after_nonblank (rev (c ++ l)) ->
  open_after_two (rev (c ++ l)) ->
  cleanup_loop l c = c ++ l.
Proof.
  revert c. induction l as [|[no text] l IH]; intros c HA HB.
  - now rewrite app_nil_r.
  - specialize (IH (c ++ [(no, text)])).
    rewrite <- app_assoc in IH. cbn [app] in IH. specialize (IH HA HB).
    cbn [cleanup_loop]. destruct (is_endregion text) eqn:E; [|exact IH].
    assert (P : Py.pop_while blank_line c = c).
    { apply pop_while_keeps. rewrite rev_app_distr in HA. simpl in HA.
      rewrite <- app_assoc in HA. simpl in HA.
      destruct (rev c) as [|b t]; [exact I|].
      exact (close_after_nonblank_at _ _ _ _ HA E). }
    assert (Z : region_lookahead l 0 = 0).
    { rewrite lookahead_blanks_before_open.
      destruct (blanks_before_open l) as [j|] eqn:J; [|reflexivity].
      destruct (blanks_before_open_split l j J)
        as (bs & r & rest & -> & Hb & R & L).
      rewrite rev_app_distr in HB. simpl in HB.
      rewrite rev_app_distr in HB. simpl in HB.
      repeat rewrite <- app_assoc in HB. simpl in HB.
      assert (2 <= List.length (rev bs)).
      { apply (open_after_two_at _ _ _ _ HB R).
        apply blanks_over_close_all_blank; [|exact E].
        apply Forall_rev. exact Hb. }
      rewrite length_rev in *. lia. }
    rewrite P, Z. cbn [repeat]. rewrite app_nil_r. exact IH.
Qed.

Lemma cleanup_loop_no_close (l c : FormattedLines) :
  Forall (fun fl => is_endregion (snd fl) = false) l ->
  cleanup_loop l c = c ++ l.
Proof.
  intros H. revert c. induction H as [|[no text] l Hx _ IH]; intros c.
  - now rewrite app_nil_r.
  - cbn [cleanup_loop]. simpl in Hx. rewrite Hx, IH, <- app_assoc.
    reflexivity.
Qed.

Lemma cleanup_loop_last (l c : FormattedLines) (d : FormattedLine) :
  l <> [] -> last (cleanup_loop l c) d = last l d.
Proof.
  revert c. induction l as [|[no text] l IH]; intros c H; [contradiction|].
  cbn [cleanup_loop]. destruct l as [|y l].
  - destruct (is_endregion text); cbn [cleanup_loop region_lookahead repeat];
      rewrite ?app_nil_r; apply last_last.
  - destruct (is_endregion text); rewrite IH by discriminate; reflexivity.
Qed.

End CleanupMore.

(** X1. The cleanup is idempotent: its output meets the spacing
    conditions it enforces, and lines that meet them are returned as they
    are. *)
Theorem cleanup_region_spacing_idempotent :
  forall lines : FormattedLines,
    _cleanup_region_spacing (_cleanup_region_spacing lines)
    = _cleanup_region_spacing lines.
Proof.
  intros lines.
  destruct (CleanupFacts.cleanup_loop_invariant lines [] I I) as [HA HB];
    [intros k j H; discriminate H|].
  unfold _cleanup_region_spacing at 1.
  exact (CleanupMore.cleanup_loop_fixed _ [] HA HB).
Qed.

(** X2. Lines none of which starts, after stripping, with the region-close
    marker are returned unchanged, whatever blank lines and region-open
    lines they hold. *)
Theorem cleanup_without_region_close_is_identity :
  forall lines : FormattedLines,
    Forall (fun fl => is_endregion (snd fl) = false) lines ->
    _cleanup_region_spacing lines = lines.
Proof.
  intros lines H. exact (CleanupMore.cleanup_loop_no_close lines [] H).
Qed.

Lemma cleanup_without_region_close_is_identity_witness :
  _cleanup_region_spacing
    [(None, "#region A"); empty_line; empty_line; empty_line;
     (Some 5, "var a")]
  = [(None, "#region A"); empty_line; empty_line; empty_line;
     (Some 5, "var a")].
Proof.
  apply (cleanup_without_region_close_is_identity
           [(None, "#region A"); empty_line; empty_line; empty_line;
            (Some 5, "var a")]).
  repeat constructor.
Defined.

(** X3. The cleanup adds and removes blank lines only: the non-blank lines
    come out as they went in, in the same order, and the last line of a
    non-empty input is the last line of the output. *)
Theorem cleanup_changes_blank_lines_only :
  forall lines : FormattedLines,
    filter nonblank_line (_cleanup_region_spacing lines)
    = filter nonblank_line lines
    /\ (lines <> [] ->
        forall d, last (_cleanup_region_spacing lines) d = last lines d).
Proof.
  intros lines. split.
  - exact (CleanupFacts.cleanup_loop_nonblank lines []).
  - intros H d. exact (CleanupMore.cleanup_loop_last lines [] d H).
Qed.

Lemma cleanup_changes_blank_lines_only_witness :
  last (_cleanup_region_spacing
          [(Some 1, "var a"); empty_line; (None, "#endregion"); empty_line])
       (None, "x")
  = empty_line.
Proof.
  apply (proj2 (cleanup_changes_blank_lines_only
                  [(Some 1, "var a"); empty_line; (None, "#endregion");
                   empty_line])).
  discriminate.
Defined.

(** ** More on the standalone-comment pass *)

Module SlotMore.

Lemma Forall_take {A : Type} (P : A -> Prop) (n : nat) (l : list A) :
  Forall P l -> Forall P (firstn n l).
Proof.
  intros H. revert n. induction H as [|x l Hx _ IH]; intros [|n]; simpl;
    constructor; auto.
Qed.

Lemma Forall_drop {A : Type} (P : A -> Prop) (n : nat) (l : list A) :
  Forall P l -> Forall P (skipn n l).
Proof.
  intros H. revert n. induction H as [|x l Hx Hl IH]; intros [|n]; simpl;
    auto.
Qed.

Lemma slots_incl (table : Comments) (n cursor : nat) (P : option string -> Prop) :
  Forall P table -> Forall P (slots table n cursor).
Proof.
  intros H. unfold slots. now apply Forall_take, Forall_drop.
Qed.

Lemma standalone_claim_incl (table : Comments) (n cursor : nat)
    (anchor : option nat) (P : option string -> Prop) :
  Forall P table -> Forall P (standalone_claim table n cursor anchor).
Proof.
  intros H. destruct anchor; simpl; now apply slots_incl.
Qed.

Lemma not_none_no_comments (l : Comments) :
  no_comments l -> Py.not_none l = [].
Proof.
  induction 1 as [|c l Hc _ IH]; [reflexivity|]. subst. exact IH.
Qed.

(** The scan is inside a run exactly when the first line scanned is
    numbered. *)
Lemma standalone_scan_inside (lines : FormattedLines) (len : nat) :
  snd (fst (standalone_scan lines len))
  = match lines with
    | fl :: _ => numbered_line fl
    | [] => false
    end.
Proof.
  destruct lines as [|[[n|] line] rest]; cbn [standalone_scan];
    [reflexivity| |].
  - destruct (standalone_scan rest len) as [[c i] a]. now destruct i.
  - now destruct (standalone_scan rest len) as [[c i] a].
Qed.

End SlotMore.

Section StandaloneMore.

Variable Pattern : Type.
Variable re_search : Pattern -> string -> option string.
Variable indent_regex : Pattern.

Local Abbreviation step := (standalone_step Pattern re_search indent_regex).
Local Abbreviation by_cursor :=
  (standalone_by_cursor Pattern re_search indent_regex).
Local Abbreviation add_standalone :=
  (fun lines table =>
     _add_standalone_comments Pattern re_search lines table indent_regex).

(** Without region markers a batch is appended comment by comment. *)
Lemma standalone_batch_plain (indent : string) (reversed_comments : Comments)
    (post : FormattedLines) :
  Forall plain_slot reversed_comments ->
  standalone_batch indent reversed_comments post
  = post ++ map (comment_line indent) (Py.not_none reversed_comments).
Proof.
  intros H. revert post.
  induction H as [|[c|] rest Hc _ IH]; intros post;
    cbn [standalone_batch Py.not_none map].
  - now rewrite app_nil_r.
  - destruct Hc as [R E]. unfold is_region in R. unfold is_endregion in E.
    rewrite R, E, IH, <- app_assoc. reflexivity.
  - apply IH.
Qed.

Lemma standalone_plain_lines (lines : FormattedLines) (table : Comments) :
  Forall (Forall plain_slot) (map fst (standalone_claims lines table)) ->
  rev (postprocessed_lines
         (fold_left step (rev lines) (mkStandalone table [] false None)))
  = by_cursor lines table.
Proof.
  induction lines as [|[no line] rest IH]; [reflexivity|].
  cbn [standalone_claims standalone_by_cursor rev map].
  rewrite fold_left_app. cbn [fold_left].
  pose proof (standalone_scan_state Pattern re_search indent_regex rest table)
    as S.
  destruct (standalone_scan rest (List.length table)) as [[c i] a].
  specialize (S c i a eq_refl). cbv zeta in S.
  set (st := fold_left step (rev rest) (mkStandalone table [] false None))
    in *.
  destruct S as (Hrem & Hin & Hlast & _ & Hpost).
  destruct no as [n|].
  - intros H. unfold standalone_step. rewrite Hin.
    destruct i; cbn [negb postprocessed_lines].
    + cbn [map fst] in H. apply Forall_cons_iff in H. destruct H as [Hc Hr].
      destruct (Hpost eq_refl) as [_ Htext].
      rewrite Hrem, Hlast, Htext, SlotFacts.slice_of_remaining.
      rewrite standalone_batch_plain by (apply Forall_rev; exact Hc).
      rewrite !rev_app_distr. cbn [rev app].
      rewrite (IH Hr), SlotFacts.not_none_rev, <- map_rev, rev_involutive.
      reflexivity.
    + cbn [map fst] in H. apply Forall_cons_iff in H. destruct H as [_ Hr].
      rewrite rev_app_distr. cbn [rev app]. now rewrite (IH Hr).
  - intros H. cbn [map fst] in H. apply Forall_cons_iff in H. destruct H as [_ Hr].
    unfold standalone_step. cbn [postprocessed_lines].
    rewrite rev_app_distr. cbn [rev app]. now rewrite (IH Hr).
Qed.

Lemma standalone_claims_incl (lines : FormattedLines) (table : Comments)
    (P : option string -> Prop) :
  Forall P table ->
  Forall (Forall P) (map fst (standalone_claims lines table)).
Proof.
  intros H. induction lines as [|[[n|] line] rest IH];
    cbn [standalone_claims map]; [constructor| |].
  - destruct (standalone_scan rest (List.length table)) as [[c i] a].
    constructor; [|exact IH].
    destruct i; cbn [fst]; [|constructor].
    now apply SlotMore.standalone_claim_incl.
  - constructor; [constructor | exact IH].
Qed.

Lemma by_cursor_no_comments (lines : FormattedLines) (table : Comments) :
  no_comments table -> by_cursor lines table = lines.
Proof.
  intros H. induction lines as [|[[n|] line] rest IH];
    cbn [standalone_by_cursor]; [reflexivity| |].
  - destruct (standalone_scan rest (List.length table)) as [[c i] a].
    rewrite IH. destruct i; [|reflexivity].
    rewrite SlotMore.not_none_no_comments; [reflexivity|].
    now apply SlotMore.standalone_claim_incl.
  - now rewrite IH.
Qed.

Lemma by_cursor_no_adjacent (lines : FormattedLines) (table : Comments) :
  no_adjacent_numbers lines ->
  by_cursor lines table = lines
  /\ Forall (fun batch => batch = []) (map fst (standalone_claims lines table)).
Proof.
  induction lines as [|[[n|] line] rest IH];
    cbn [standalone_by_cursor standalone_claims map no_adjacent_numbers].
  - split; [reflexivity | constructor].
  - pose proof (SlotMore.standalone_scan_inside rest (List.length table)) as I.
    destruct (standalone_scan rest (List.length table)) as [[c i] a].
    cbn [fst snd] in I. subst i.
    destruct rest as [|[[m|] l2] rest']; intros H.
    + split; [reflexivity | repeat constructor].
    + contradiction.
    + destruct (IH H) as [E F]. cbn [numbered_line fst app].
      split; [now rewrite E | constructor; [reflexivity | exact F]].
  - intros H.
    assert (H' : no_adjacent_numbers rest) by now destruct rest.
    destruct (IH H') as [E F].
    split; [now rewrite E | constructor; [reflexivity | exact F]].
Qed.

Lemma by_cursor_numbered (lines : FormattedLines) (table : Comments)
    (keep : FormattedLine -> bool) :
  (forall fl, numbered_line fl = false -> keep fl = false) ->
  filter keep (by_cursor lines table) = filter keep lines.
Proof.
  intros K. induction lines as [|[[n|] line] rest IH];
    cbn [standalone_by_cursor]; [reflexivity| |].
  - destruct (standalone_scan rest (List.length table)) as [[c i] a].
    rewrite !(filter_cons_if keep (Some n, line)), filter_app, IH.
    f_equal. replace (filter keep _) with (@nil FormattedLine);
      [reflexivity|].
    destruct i; [|reflexivity].
    induction (Py.not_none (standalone_claim table n c a)) as [|x l IHl];
      [reflexivity|].
    cbn [map filter]. now rewrite (K (comment_line _ x) eq_refl).
  - rewrite !(filter_cons_if keep (@None nat, line)). now rewrite IH.
Qed.

(** X4. When none of the slots the pass claims holds a region marker, the
    pass returns the input lines in their order and, right after each line
    reached inside a run of numbered lines, the non-empty slots it claims,
    in table order, each on a line of its own and indented by the greater
    of the indentations of that line and of the next one; no other line is
    added and none is removed. *)
Theorem standalone_without_markers_inserts_comment_lines :
  forall (lines : FormattedLines) (table : Comments),
    Forall (Forall plain_slot) (map fst (standalone_claims lines table)) ->
    add_standalone lines table = by_cursor lines table.
Proof.
  intros lines table H. unfold _add_standalone_comments.
  exact (standalone_plain_lines lines table H).
Qed.

(** X5. A table without comments, the empty table included, leaves the
    lines as they are; so do lines in which no numbered line comes right
    after another numbered line, whatever the table holds, region markers
    included. *)
Theorem standalone_nothing_to_claim_is_identity :
  forall (lines : FormattedLines) (table : Comments),
    (no_comments table -> add_standalone lines table = lines)
    /\ (no_adjacent_numbers lines -> add_standalone lines table = lines).
Proof.
  intros lines table. split; intros H; unfold _add_standalone_comments.
  - rewrite standalone_plain_lines.
    + now apply by_cursor_no_comments.
    + apply standalone_claims_incl.
      eapply Forall_impl; [|exact H]. intros c ->. exact I.
  - destruct (by_cursor_no_adjacent lines table H) as [E F].
    rewrite standalone_plain_lines; [exact E|].
    rewrite Forall_forall in F. apply Forall_forall.
    intros batch Hb. rewrite (F batch Hb). constructor.
Qed.

(** X8. The standalone pass followed by the cleanup keeps every numbered
    line that is not blank: these lines come out with their numbers and
    texts, in the same order, and no numbered line is added. *)
Theorem standalone_and_cleanup_keep_code_lines :
  forall (lines : FormattedLines) (table : Comments),
    filter (fun fl => numbered_line fl && nonblank_line fl)
      (_cleanup_region_spacing (add_standalone lines table))
    = filter (fun fl => numbered_line fl && nonblank_line fl) lines.
Proof.
  intros lines table.
  assert (F : forall l : FormattedLines,
             filter (fun fl => numbered_line fl && nonblank_line fl) l
             = filter numbered_line (filter nonblank_line l)).
  { induction l as [|x l IH]; [reflexivity|]. cbn [filter].
    destruct (nonblank_line x); cbn [filter];
      rewrite ?andb_true_r, ?andb_false_r, IH; reflexivity. }
  rewrite F. unfold _cleanup_region_spacing.
  rewrite CleanupFacts.cleanup_loop_nonblank. cbn [filter app].
  rewrite (add_standalone_nonblank Pattern re_search indent_regex).
  rewrite <- !F. apply by_cursor_numbered.
  intros fl H. now rewrite H.
Qed.

End StandaloneMore.

Lemma standalone_without_markers_inserts_comment_lines_witness :
  Sample.add_standalone
    [(Some 1, "var b = ["); (Some 3, (Sample.TAB ++ "1,")%string);
     (Some 5, "]"); (None, "")]
    [None; None; Some "# two"; None; Some "# four"; None] tt
  = standalone_by_cursor unit Sample.tabs_search tt
      [(Some 1, "var b = ["); (Some 3, (Sample.TAB ++ "1,")%string);
       (Some 5, "]"); (None, "")]
      [None; None; Some "# two"; None; Some "# four"; None].
Proof.
  apply (standalone_without_markers_inserts_comment_lines
           unit Sample.tabs_search tt).
  simpl. repeat constructor.
Defined.

Lemma standalone_nothing_to_claim_is_identity_witness :
  Sample.add_standalone
    [(Some 1, "var a = ["); (Some 3, "]"); (None, "")]
    [None; None; None; None] tt
  = [(Some 1, "var a = ["); (Some 3, "]"); (None, "")]
  /\ Sample.add_standalone
       [(Some 1, "var a"); (None, ""); (Some 3, "var b"); (None, "")]
       [None; None; Some "#endregion"; None] tt
     = [(Some 1, "var a"); (None, ""); (Some 3, "var b"); (None, "")].
Proof.
  split.
  - apply (proj1 (standalone_nothing_to_claim_is_identity
                    unit Sample.tabs_search tt
                    [(Some 1, "var a = ["); (Some 3, "]"); (None, "")]
                    [None; None; None; None])).
    repeat constructor.
  - apply (proj2 (standalone_nothing_to_claim_is_identity
                    unit Sample.tabs_search tt
                    [(Some 1, "var a"); (None, ""); (Some 3, "var b");
                     (None, "")]
                    [None; None; Some "#endregion"; None])).
    exact I.
Defined.

(** ** [_get_greater_indent] *)

(** X7. The indentation chosen for a comment is the indentation the
    pattern finds in one of the two lines, the empty string where it finds
    none, and it is as long as the longer of the two; when they are
    equally long it is that of the second line. *)
Theorem greater_indent_is_the_longer :
  forall (Pattern : Type) (re_search : Pattern -> string -> option string)
         (indent_regex : Pattern) (line_a line_b : string),
    let indent_of line :=
      match re_search indent_regex line with
      | Some g => g
      | None => ""
      end in
    let chosen :=
      _get_greater_indent Pattern re_search line_a line_b indent_regex in
    (chosen = indent_of line_a \/ chosen = indent_of line_b)
    /\ String.length chosen
       = Nat.max (String.length (indent_of line_a))
           (String.length (indent_of line_b))
    /\ (String.length (indent_of line_a) = String.length (indent_of line_b)
        -> chosen = indent_of line_b).
Proof.
  intros Pattern re_search indent_regex line_a line_b indent_of chosen.
  unfold chosen, _get_greater_indent. fold (indent_of line_a).
  fold (indent_of line_b).
  destruct (Nat.ltb_spec (String.length (indent_of line_b))
              (String.length (indent_of line_a))) as [H|H].
  - split; [now left|]. split; [lia|]. intros E. lia.
  - split; [now right|]. split; [lia|]. reflexivity.
Qed.

Lemma greater_indent_is_the_longer_witness :
  _get_greater_indent unit Sample.tabs_search "var a" "var b" tt = "".
Proof.
  apply (proj2 (proj2 (greater_indent_is_the_longer
                         unit Sample.tabs_search tt "var a" "var b"))).
  reflexivity.
Defined.

(** ** More on the inline-comment pass *)

Module InlineMore.

Lemma cursor_le_length (lines : FormattedLines) (len : nat) :
  inline_cursor lines len <= len.
Proof.
  induction lines as [|[[n|] line] rest IH]; simpl; lia.
Qed.

Lemma cursor_le_number (lines : FormattedLines) (len m : nat) :
  In m (line_numbers lines) -> inline_cursor lines len <= m.
Proof.
  induction lines as [|[[n|] line] rest IH]; simpl; [contradiction| |exact IH].
  intros [->|H]; [lia|]. specialize (IH H). lia.
Qed.

Lemma cursor_ge_bound (lines : FormattedLines) (len k : nat) :
  Forall (fun m => k <= m) (line_numbers lines) -> k <= len ->
  k <= inline_cursor lines len.
Proof.
  induction lines as [|[[n|] line] rest IH]; simpl; intros H L;
    [exact L| |exact (IH H L)].
  inversion H as [|? ? Hn Hr]; subst. specialize (IH Hr L). lia.
Qed.

(** The cursor left by the lines after a line is the least of their
    numbers, at most the table's length. *)
Lemma cursor_is_least_number (lines : FormattedLines) (len m : nat) :
  In m (line_numbers lines) ->
  Forall (fun m' => m <= m') (line_numbers lines) ->
  inline_cursor lines len = Nat.min m len.
Proof.
  intros Hin Hle.
  pose proof (cursor_le_length lines len).
  pose proof (cursor_le_number lines len m Hin).
  destruct (Nat.le_gt_cases m len) as [L|L].
  - pose proof (cursor_ge_bound lines len m Hle L). lia.
  - assert (Forall (fun m' => len <= m') (line_numbers lines)).
    { eapply Forall_impl; [|exact Hle]. simpl. intros; lia. }
    pose proof (cursor_ge_bound lines len len H1 (le_n _)). lia.
Qed.

Lemma cursor_without_numbers (lines : FormattedLines) (len : nat) :
  line_numbers lines = [] -> inline_cursor lines len = len.
Proof.
  induction lines as [|[[n|] line] rest IH]; simpl;
    [reflexivity | discriminate | exact IH].
Qed.

Lemma inline_by_cursor_no_comments (offset : nat) (lines : FormattedLines)
    (table : Comments) :
  no_comments table -> inline_by_cursor offset lines table = lines.
Proof.
  intros H. induction lines as [|[[n|] line] rest IH];
    cbn [inline_by_cursor]; [reflexivity| |now rewrite IH].
  rewrite IH, SlotMore.not_none_no_comments; [reflexivity|].
  now apply SlotMore.slots_incl.
Qed.

Lemma by_cursor_out_of_range (offset : nat) (lines : FormattedLines)
    (table : Comments) :
  Forall (fun n => List.length table <= n) (line_numbers lines) ->
  inline_by_cursor offset lines table = lines.
Proof.
  induction lines as [|[[n|] line] rest IH];
    cbn [inline_by_cursor line_numbers]; [reflexivity| |].
  - intros H. inversion H as [|? ? Hn Hr]; subst.
    rewrite (IH Hr), SlotFacts.slots_nil; [reflexivity|].
    pose proof (cursor_le_length rest (List.length table)). lia.
  - intros H. now rewrite (IH H).
Qed.

End InlineMore.

(** X6. The inline pass returns the lines as they are when the table holds
    no comment, the empty table included, and when every source line
    number is at or past the table's end: a number out of the table's
    range is no error. *)
Theorem inline_nothing_to_claim_is_identity :
  forall (offset : nat) (lines : FormattedLines) (table : Comments),
    (no_comments table -> _add_inline_comments offset lines table = lines)
    /\ (Forall (fun n => List.length table <= n) (line_numbers lines) ->
        _add_inline_comments offset lines table = lines).
Proof.
  intros offset lines table. rewrite add_inline_by_cursor. split.
  - apply InlineMore.inline_by_cursor_no_comments.
  - apply InlineMore.by_cursor_out_of_range.
Qed.

Lemma inline_nothing_to_claim_is_identity_witness :
  _add_inline_comments 2 [(Some 1, "var a"); (None, "")] [None; None] 
  = [(Some 1, "var a"); (None, "")]
  /\ _add_inline_comments 2 [(Some 4, "var a"); (None, "")]
       [None; Some "# one"; Some "# two"]
     = [(Some 4, "var a"); (None, "")].
Proof.
  split.
  - apply (proj1 (inline_nothing_to_claim_is_identity 2
                    [(Some 1, "var a"); (None, "")] [None; None])).
    repeat constructor.
  - apply (proj2 (inline_nothing_to_claim_is_identity 2
                    [(Some 4, "var a"); (None, "")]
                    [None; Some "# one"; Some "# two"])).
    repeat constructor.
Defined.

(** X9. When the source line numbers after a numbered line [n] are all at
    least [m], the number of one of them, the line gets exactly the inline
    comments of the source lines [n] to [m - 1] that the table has: a
    comment goes to the nearest rendered line at or before its own source
    line.  The last numbered line gets the comments of every source line
    from its own on. *)
Theorem inline_comment_goes_to_nearest_line_before :
  forall (offset : nat) (before after : FormattedLines) (n : nat)
         (line : string) (table : Comments),
    (forall m,
        In m (line_numbers after) ->
        Forall (fun m' => m <= m') (line_numbers after) ->
        nth_error
          (_add_inline_comments offset (before ++ (Some n, line) :: after)
             table)
          (List.length before)
        = Some (Some n,
                Py.join (comment_offset offset)
                  (line :: Py.not_none
                             (slots table n
                                (Nat.min m (List.length table))))))
    /\ (line_numbers after = [] ->
        nth_error
          (_add_inline_comments offset (before ++ (Some n, line) :: after)
             table)
          (List.length before)
        = Some (Some n,
                Py.join (comment_offset offset)
                  (line :: Py.not_none (Py.slice_from n table)))).
Proof.
  intros offset before after n line table.
  assert (E : nth_error
                (_add_inline_comments offset
                   (before ++ (Some n, line) :: after) table)
                (List.length before)
              = Some (Some n,
                      Py.join (comment_offset offset)
                        (line :: Py.not_none
                                   (slots table n
                                      (inline_cursor after
                                         (List.length table)))))).
  { rewrite add_inline_by_cursor.
    destruct (inline_by_cursor_app offset before ((Some n, line) :: after)
                table) as (done & E & L).
    transitivity
      (nth_error
         (done ++ inline_by_cursor offset ((Some n, line) :: after) table)
         (List.length done)).
    { f_equal; [exact E | symmetry; exact L]. }
    rewrite nth_error_app2, Nat.sub_diag by lia. reflexivity. }
  split.
  - intros m Hin Hle. rewrite E.
    now rewrite (InlineMore.cursor_is_least_number after _ m Hin Hle).
  - intros H. rewrite E, (InlineMore.cursor_without_numbers after _ H).
    unfold slots, Py.slice_from. rewrite firstn_all2; [reflexivity|].
    rewrite length_skipn. lia.
Qed.

Lemma inline_comment_goes_to_nearest_line_before_witness :
  nth_error
    (_add_inline_comments 2
       ([(Some 1, "var a")] ++ (Some 2, "var b = [") :: [(Some 5, "]")])
       [None; None; Some "# two"; Some "# three"; None; Some "# five"])
    (List.length [(Some 1, "var a")])
  = Some (Some 2, "var b = [  # two  # three")
  /\ nth_error
       (_add_inline_comments 2
          ([(Some 1, "var a")] ++ (Some 2, "var b") :: [(None, "")])
          [None; None; Some "# two"; Some "# three"])
       (List.length [(Some 1, "var a")])
     = Some (Some 2, "var b  # two  # three").
Proof.
  split.
  - apply (proj1 (inline_comment_goes_to_nearest_line_before 2
                    [(Some 1, "var a")] [(Some 5, "]")] 2 "var b = ["
                    [None; None; Some "# two"; Some "# three"; None;
                     Some "# five"]) 5).
    + simpl. auto.
    + repeat constructor.
  - apply (proj2 (inline_comment_goes_to_nearest_line_before 2
                    [(Some 1, "var a")] [(None, "")] 2 "var b"
                    [None; None; Some "# two"; Some "# three"])).
    reflexivity.
Defined.

(** ** More on the class-statement handlers *)

Section ClassStatementMore.

Variable Context : Type.
Variable indent_string : Context -> string.
Variable create_child_context : Context -> nat -> Context.
Variable ExpressionContext : Type.
Variable mkExpressionContext :
  string -> nat -> string -> nat -> ExpressionContext.
Variable EmptyLinesTable : Type.
Variable format_block :
  list Node -> (Node -> Context -> Result Outcome) -> Context ->
  option EmptyLinesTable -> Result Outcome.
Variable format_func_statement : Node -> Context -> Result Outcome.
Variable format_simple_statement : string -> Node -> Context -> Result Outcome.
Variable format_var_statement : Node -> Context -> Result Outcome.
Variable expression_to_str : Node -> Result string.
Variable format_expression :
  Node -> ExpressionContext -> Context -> Result Outcome.
Variable format_concrete_expression :
  Node -> ExpressionContext -> Context -> Result Outcome.

Local Abbreviation dispatch :=
  (format_class_statement Context indent_string create_child_context
     ExpressionContext mkExpressionContext EmptyLinesTable format_block
     format_func_statement format_simple_statement format_var_statement
     expression_to_str format_expression format_concrete_expression).
Local Abbreviation table :=
  (handlers Context indent_string create_child_context
     ExpressionContext mkExpressionContext EmptyLinesTable format_block
     format_func_statement format_simple_statement format_var_statement
     expression_to_str format_expression format_concrete_expression).
Local Abbreviation signal_statement :=
  (_format_signal_statement Context ExpressionContext mkExpressionContext
     format_simple_statement format_concrete_expression).
Local Abbreviation classname_statement :=
  (_format_classname_statement Context indent_string).
Local Abbreviation extends_statement :=
  (_format_extends_statement Context indent_string expression_to_str).
Local Abbreviation classname_extends_statement :=
  (_format_classname_extends_statement Context indent_string
     expression_to_str).
Local Abbreviation class_statement :=
  (_format_class_statement Context indent_string create_child_context
     EmptyLinesTable format_block).
Local Abbreviation func_header :=
  (_format_func_header Context ExpressionContext mkExpressionContext
     format_concrete_expression).
Local Abbreviation enum_statement :=
  (_format_enum_statement Context ExpressionContext mkExpressionContext
     format_concrete_expression).
Local Abbreviation child_and_prepend :=
  (_format_child_and_prepend_to_outcome Context indent_string).

(** Case analysis on the results the handler binds, in order. *)
Ltac split_binds H :=
  repeat match type of H with
         | bind ?r _ = _ =>
             let E := fresh "E" in
             destruct r eqn:E; cbn [bind] in H; [|discriminate H]
         | match ?x with _ => _ end = _ => destruct x
         | (if ?b then _ else _) = _ => destruct b
         end.

(** X10. Only [class_def] and [static_func_def] reach the dispatcher
    again: on every other tag, known or not, the result is the same at
    every call depth left, from one call on. *)
Theorem dispatch_depth_matters_for_two_tags_only :
  forall (depth depth' : nat) (tag : string) (cs : list Node) (ln eln : nat)
         (context : Context),
    tag <> "class_def" -> tag <> "static_func_def" ->
    dispatch (S depth) (Tree tag cs ln eln) context
    = dispatch (S depth') (Tree tag cs ln eln) context.
Proof.
  intros depth depth' tag cs ln eln context Hc Hs.
  cbn [format_class_statement]. unfold dispatch_class_statement.
  cbn [Lark.data bind handlers dict_get].
  repeat match goal with
         | |- context [String.eqb ?k tag] =>
             destruct (String.eqb_spec k tag) as [<-|_];
             [first [reflexivity | contradiction]|]
         end.
  reflexivity.
Qed.

(** X11. The static-function handler fails with [IndexError] on a
    statement without children and on a child rendered to no line, and
    hands on the exception of its child; a child with a tag the table does
    not know makes it fail with the [KeyError] of that tag. *)
Theorem static_func_failures :
  forall (depth : nat) (ln eln : nat) (context : Context),
    dispatch (S depth) (Tree "static_func_def" [] ln eln) context
    = Raise IndexError
    /\ (forall child rest e,
          dispatch depth child context = Raise e ->
          dispatch (S depth) (Tree "static_func_def" (child :: rest) ln eln)
            context
          = Raise e)
    /\ (forall child rest last,
          dispatch depth child context = Ok ([], last) ->
          dispatch (S depth) (Tree "static_func_def" (child :: rest) ln eln)
            context
          = Raise IndexError)
    /\ (forall tag cs l1 l2 rest,
          ~ In tag (map fst (table (dispatch depth))) ->
          dispatch (S (S depth))
            (Tree "static_func_def" (Tree tag cs l1 l2 :: rest) ln eln)
            context
          = Raise (KeyError tag)).
Proof.
  intros depth ln eln context.
  assert (P : forall d child rest,
             dispatch (S d) (Tree "static_func_def" (child :: rest) ln eln)
               context
             = child_and_prepend (dispatch d)
                 (Tree "static_func_def" (child :: rest) ln eln) context
                 "static ") by reflexivity.
  split; [reflexivity|]. split; [|split].
  - intros child rest e H. rewrite P.
    unfold _format_child_and_prepend_to_outcome.
    cbn [Lark.children bind index nth_error]. now rewrite H.
  - intros child rest last H. rewrite P.
    unfold _format_child_and_prepend_to_outcome.
    cbn [Lark.children bind index nth_error]. now rewrite H.
  - intros tag cs l1 l2 rest H. rewrite P.
    unfold _format_child_and_prepend_to_outcome.
    cbn [Lark.children bind index nth_error].
    apply DictFacts.dict_get_none in H.
    cbn [format_class_statement] in H |- *.
    unfold dispatch_class_statement at 1. cbn [Lark.data bind].
    now rewrite H.
Qed.

(** X12. The three single-line handlers, when they return, return exactly
    one line: it carries the statement's first line number, its text
    starts with the context's indent string, and the last line consumed is
    that same line number. *)
Theorem single_line_statements_render_one_line :
  forall (tag : string) (cs : list Node) (ln eln : nat) (context : Context)
         (lines : FormattedLines) (last : nat),
    classname_statement (Tree tag cs ln eln) context = Ok (lines, last)
    \/ extends_statement (Tree tag cs ln eln) context = Ok (lines, last)
    \/ classname_extends_statement (Tree tag cs ln eln) context
       = Ok (lines, last) ->
    exists text,
      lines = [(Some ln, (indent_string context ++ text)%string)]
      /\ last = ln.
Proof.
  intros tag cs ln eln context lines last [H|[H|H]].
  - unfold _format_classname_statement in H.
    cbn [Lark.line Lark.children bind] in H. split_binds H.
    injection H as <- <-. eexists. split; reflexivity.
  - unfold _format_extends_statement in H.
    cbn [Lark.line Lark.children bind] in H. split_binds H.
    injection H as <- <-. eexists. split; reflexivity.
  - unfold _format_classname_extends_statement in H.
    cbn [Lark.line Lark.children bind] in H. split_binds H.
    injection H as <- <-. eexists. split; reflexivity.
Qed.

Lemma append_empty (s : string) : (s ++ "")%string = s.
Proof. induction s as [|c s IH]; simpl; congruence. Qed.

Lemma index_last_snoc {A : Type} (l : list A) (x : A) :
  index_last (l ++ [x]) = Ok x.
Proof. unfold index_last. now rewrite rev_app_distr. Qed.

Lemma index_last_cons {A : Type} (x : A) (l : list A) :
  index_last (x :: l) = Ok (last l x).
Proof.
  destruct (exists_last (l := x :: l)) as (l' & y & E); [discriminate|].
  rewrite E, index_last_snoc. f_equal.
  change (last l x) with (last (x :: l) x) at 1 || idtac.
  assert (L : last (x :: l) x = last l x) by (destruct l; reflexivity).
  rewrite <- L, E. symmetry. apply last_last.
Qed.

Lemma index_last_skip {A : Type} (x y : A) (l : list A) :
  index_last (x :: y :: l) = index_last (y :: l).
Proof.
  unfold index_last. cbn [rev].
  destruct (rev l ++ [y]) as [|z t] eqn:E; [|reflexivity].
  now apply app_eq_nil in E.
Qed.

(** X13. The two [extends] handlers render the extendee and its attribute
    chain as one dot-separated name: with the texts of the extendee and of
    every child after it, the line reads [extends], or [class_name X
    extends], followed by their join with dots; an [extends] statement
    without children fails with [IndexError]. *)
Theorem extends_chain_is_one_join :
  forall (tag : string) (ln eln : nat) (context : Context),
    (forall c0 cs strs,
        mapM expression_to_str (c0 :: cs) = Ok strs ->
        extends_statement (Tree tag (c0 :: cs) ln eln) context
        = Ok ([(Some ln,
                (indent_string context ++ "extends "
                 ++ Py.join "." strs)%string)], ln))
    /\ (forall c0 t1 name c2 extendee attributes strs,
          mapM expression_to_str (extendee :: attributes) = Ok strs ->
          classname_extends_statement
            (Tree tag (c0 :: Token t1 name :: c2 :: extendee :: attributes)
               ln eln) context
          = Ok ([(Some ln,
                  (indent_string context ++ "class_name " ++ name
                   ++ " extends " ++ Py.join "." strs)%string)], ln))
    /\ extends_statement (Tree tag [] ln eln) context = Raise IndexError.
Proof.
  intros tag ln eln context. split; [|split; [|reflexivity]].
  - intros c0 cs strs H. cbn [mapM] in H.
    destruct (expression_to_str c0) as [s0|] eqn:E0; [|discriminate H].
    cbn [bind] in H.
    destruct (mapM expression_to_str cs) as [ss|] eqn:Es; [|discriminate H].
    cbn [bind] in H. injection H as <-.
    unfold _format_extends_statement. cbn [Lark.line Lark.children bind].
    destruct cs as [|c1 cs'].
    + cbn [mapM] in Es. injection Es as <-.
      cbn [List.length Nat.eqb bind index nth_error]. rewrite E0.
      cbn [bind]. unfold Py.join. cbn [String.concat].
      now rewrite append_empty.
    + cbn [List.length Nat.eqb Py.slice_from skipn]. rewrite Es.
      cbn [bind index nth_error]. rewrite E0. cbn [bind].
      cbn [mapM] in Es.
      destruct (expression_to_str c1); [|discriminate Es]. cbn [bind] in Es.
      destruct (mapM expression_to_str cs'); [|discriminate Es].
      cbn [bind] in Es. injection Es as <-. reflexivity.
  - intros c0 t1 name c2 extendee attributes strs H. cbn [mapM] in H.
    destruct (expression_to_str extendee) as [s0|] eqn:E0; [|discriminate H].
    cbn [bind] in H.
    destruct (mapM expression_to_str attributes) as [ss|] eqn:Es;
      [|discriminate H].
    cbn [bind] in H. injection H as <-.
    unfold _format_classname_extends_statement.
    cbn [Lark.line Lark.children bind].
    destruct attributes as [|a1 attributes'].
    + cbn [mapM] in Es. injection Es as <-.
      cbn [List.length Nat.add Nat.leb bind index nth_error Lark.value].
      rewrite E0. cbn [bind]. unfold Py.join. cbn [String.concat].
      now rewrite append_empty.
    + cbn [List.length Nat.add Nat.leb Py.slice_from skipn]. rewrite Es.
      cbn [bind index nth_error Lark.value]. rewrite E0. cbn [bind].
      cbn [mapM] in Es.
      destruct (expression_to_str a1); [|discriminate Es]. cbn [bind] in Es.
      destruct (mapM expression_to_str attributes'); [|discriminate Es].
      cbn [bind] in Es. injection Es as <-. reflexivity.
Qed.

(** X14. A signal statement with one child, or whose second child has no
    children, is rendered as the simple statement [signal NAME]; the
    second child is not looked at when there is only one.  Otherwise its
    last child goes to the concrete-expression formatter with the prefix
    [signal NAME], the statement's lines and an empty suffix.  Without
    children the handler fails with [IndexError], with a token as second
    child with [AttributeError]. *)
Theorem signal_statement_cases :
  forall (tag : string) (ln eln : nat) (context : Context),
    (forall t name,
        signal_statement (Tree tag [Token t name] ln eln) context
        = format_simple_statement ("signal " ++ name)%string
            (Tree tag [Token t name] ln eln) context)
    /\ (forall t name a l1 l2 more,
          signal_statement
            (Tree tag (Token t name :: Tree a [] l1 l2 :: more) ln eln)
            context
          = format_simple_statement ("signal " ++ name)%string
              (Tree tag (Token t name :: Tree a [] l1 l2 :: more) ln eln)
              context)
    /\ (forall t name a x xs l1 l2 more,
          signal_statement
            (Tree tag (Token t name :: Tree a (x :: xs) l1 l2 :: more)
               ln eln) context
          = format_concrete_expression
              (last more (Tree a (x :: xs) l1 l2))
              (mkExpressionContext ("signal " ++ name)%string ln "" eln)
              context)
    /\ signal_statement (Tree tag [] ln eln) context = Raise IndexError
    /\ (forall c0 t v more,
          signal_statement (Tree tag (c0 :: Token t v :: more) ln eln)
            context
          = Raise AttributeError).
Proof.
  intros tag ln eln context.
  split; [reflexivity|]. split; [reflexivity|].
  split; [|split; reflexivity].
  intros t name a x xs l1 l2 more. unfold _format_signal_statement.
  cbn [Lark.children Lark.line Lark.end_line Lark.value bind index
    nth_error List.length Nat.eqb].
  rewrite index_last_skip, index_last_cons. reflexivity.
Qed.

(** X15. A function header with two children is rendered with the suffix
    [:], with more with the suffix [ -> T:], [T] the value of the third
    child; in both cases the second child goes to the concrete-expression
    formatter with the prefix [func NAME].  A header with fewer than two
    children fails with [IndexError].  A function statement is the lines
    of its header followed by those of its body, which the block driver
    renders with the function-scope dispatcher in a child context made at
    the last line the header consumed. *)
Theorem func_statement_header_and_body :
  forall (tag : string) (ln eln : nat) (context : Context),
    (forall t name args,
        func_header (Tree tag [Token t name; args] ln eln) context
        = format_concrete_expression args
            (mkExpressionContext ("func " ++ name)%string ln ":" eln)
            context)
    /\ (forall t name args t2 return_type more,
          func_header
            (Tree tag (Token t name :: args :: Token t2 return_type :: more)
               ln eln) context
          = format_concrete_expression args
              (mkExpressionContext ("func " ++ name)%string ln
                 (" -> " ++ return_type ++ ":")%string eln)
              context)
    /\ func_header (Tree tag [] ln eln) context = Raise IndexError
    /\ (forall t name,
          func_header (Tree tag [Token t name] ln eln) context
          = Raise IndexError)
    /\ (forall depth header body header_lines header_last body_lines
               body_last,
          func_header header context = Ok (header_lines, header_last) ->
          format_block body format_func_statement
            (create_child_context context header_last) None
          = Ok (body_lines, body_last) ->
          dispatch (S depth) (Tree "func_def" (header :: body) ln eln) context
          = Ok (header_lines ++ body_lines, body_last)).
Proof.
  intros tag ln eln context.
  split; [reflexivity|]. split; [reflexivity|]. split; [reflexivity|].
  split; [reflexivity|].
  intros depth header body hl hlast bl blast Hh Hb.
  cbn [format_class_statement]. unfold dispatch_class_statement.
  cbn [Lark.data bind handlers dict_get String.eqb Ascii.eqb Bool.eqb].
  unfold _format_func_statement.
  cbn [Lark.children bind index nth_error Py.slice_from skipn].
  rewrite Hh. cbn [bind]. now rewrite Hb.
Qed.

(** X16. An enum statement takes the prefix [enum NAME ] when its first
    child has exactly two children, [NAME] the value of the first of them,
    and [enum ] otherwise; the last child of that first child goes to the
    concrete-expression formatter with the statement's own lines and an
    empty suffix.  Without children, or with a first child without
    children, the handler fails with [IndexError]. *)
Theorem enum_statement_cases :
  forall (tag : string) (more : list Node) (ln eln : nat) (context : Context),
    (forall a t name body l1 l2,
        enum_statement
          (Tree tag (Tree a [Token t name; body] l1 l2 :: more) ln eln)
          context
        = format_concrete_expression body
            (mkExpressionContext ("enum " ++ name ++ " ")%string ln "" eln)
            context)
    /\ (forall a c0 cs l1 l2,
          List.length (c0 :: cs) <> 2 ->
          enum_statement (Tree tag (Tree a (c0 :: cs) l1 l2 :: more) ln eln)
            context
          = format_concrete_expression (last cs c0)
              (mkExpressionContext "enum " ln "" eln) context)
    /\ enum_statement (Tree tag [] ln eln) context = Raise IndexError
    /\ (forall a l1 l2,
          enum_statement (Tree tag (Tree a [] l1 l2 :: more) ln eln) context
          = Raise IndexError).
Proof.
  intros tag more ln eln context.
  split; [reflexivity|]. split; [|split; reflexivity].
  intros a c0 cs l1 l2 H. unfold _format_enum_statement.
  cbn [Lark.children bind index nth_error].
  destruct (Nat.eqb_spec (List.length (c0 :: cs)) 2) as [E|_];
    [contradiction|].
  cbn [bind Lark.line Lark.end_line]. rewrite index_last_cons.
  reflexivity.
Qed.

End ClassStatementMore.

Lemma dispatch_depth_matters_for_two_tags_only_witness :
  Sample.class_statement 1 Sample.const_typed Sample.TAB
  = Sample.class_statement 5 Sample.const_typed Sample.TAB.
Proof.
  apply (dispatch_depth_matters_for_two_tags_only
           Sample.Context Sample.indent_string Sample.create_child_context
           Sample.ExpressionContext Sample.mkExpressionContext unit
           Sample.format_block Sample.format_func_statement
           Sample.format_simple_statement Sample.format_var_statement
           Sample.expression_to_str Sample.format_expression
           Sample.format_expression 0 4 "const_stmt");
    discriminate.
Defined.

Lemma static_func_failures_witness :
  Sample.class_statement 2
    (Tree "static_func_def" [Tree "class_var_stmt" [] 1 1] 1 1) ""
  = Raise (OtherError "not modelled")
  /\ format_class_statement
       Sample.Context Sample.indent_string Sample.create_child_context
       Sample.ExpressionContext Sample.mkExpressionContext unit
       Sample.format_block Sample.format_func_statement
       Sample.format_simple_statement (fun _ _ => Ok ([], 0))
       Sample.expression_to_str Sample.format_expression
       Sample.format_expression 2
       (Tree "static_func_def" [Tree "class_var_stmt" [] 1 1] 1 1) ""
     = Raise IndexError
  /\ Sample.class_statement 2
       (Tree "static_func_def" [Tree "match_stmt" [] 1 1] 1 1) ""
     = Raise (KeyError "match_stmt").
Proof.
  split; [|split].
  - apply (proj1 (proj2 (static_func_failures
             Sample.Context Sample.indent_string Sample.create_child_context
             Sample.ExpressionContext Sample.mkExpressionContext unit
             Sample.format_block Sample.format_func_statement
             Sample.format_simple_statement Sample.format_var_statement
             Sample.expression_to_str Sample.format_expression
             Sample.format_expression 1 1 1 ""))).
    reflexivity.
  - apply (proj1 (proj2 (proj2 (static_func_failures
             Sample.Context Sample.indent_string Sample.create_child_context
             Sample.ExpressionContext Sample.mkExpressionContext unit
             Sample.format_block Sample.format_func_statement
             Sample.format_simple_statement (fun _ _ => Ok ([], 0))
             Sample.expression_to_str Sample.format_expression
             Sample.format_expression 1 1 1 "")))
             (Tree "class_var_stmt" [] 1 1) [] 0).
    reflexivity.
  - apply (proj2 (proj2 (proj2 (static_func_failures
             Sample.Context Sample.indent_string Sample.create_child_context
             Sample.ExpressionContext Sample.mkExpressionContext unit
             Sample.format_block Sample.format_func_statement
             Sample.format_simple_statement Sample.format_var_statement
             Sample.expression_to_str Sample.format_expression
             Sample.format_expression 0 1 1 "")))).
    simpl. intros H.
    repeat (destruct H as [H|H]; [discriminate H|]). exact H.
Defined.

Lemma single_line_statements_render_one_line_witness :
  exists text,
    [(Some 3, (Sample.TAB ++ "class_name Player")%string)]
    = [(Some 3, (Sample.indent_string Sample.TAB ++ text)%string)]
    /\ 3 = 3.
Proof.
  apply (single_line_statements_render_one_line
           Sample.Context Sample.indent_string Sample.expression_to_str
           "classname_stmt" [Token "NAME" "Player"] 3 3 Sample.TAB).
  left. reflexivity.
Defined.

Lemma extends_chain_is_one_join_witness :
  _format_extends_statement Sample.Context Sample.indent_string
    Sample.expression_to_str
    (Tree "extends_stmt" [Token "NAME" "Base"; Token "NAME" "Inner"] 1 1) ""
  = Ok ([(Some 1, "extends Base.Inner")], 1)
  /\ _format_classname_extends_statement Sample.Context Sample.indent_string
       Sample.expression_to_str
       (Tree "classname_extends_stmt"
          [Token "CLASS_NAME" "class_name"; Token "NAME" "Player";
           Token "EXTENDS" "extends"; Token "NAME" "Base";
           Token "NAME" "Inner"; Token "NAME" "Deep"] 1 1) ""
     = Ok ([(Some 1, "class_name Player extends Base.Inner.Deep")], 1).
Proof.
  split.
  - apply (proj1 (extends_chain_is_one_join
                    Sample.Context Sample.indent_string
                    Sample.expression_to_str "extends_stmt" 1 1 "")
             (Token "NAME" "Base") [Token "NAME" "Inner"] ["Base"; "Inner"]).
    reflexivity.
  - apply (proj1 (proj2 (extends_chain_is_one_join
                    Sample.Context Sample.indent_string
                    Sample.expression_to_str "classname_extends_stmt" 1 1 ""))
             (Token "CLASS_NAME" "class_name") "NAME" "Player"
             (Token "EXTENDS" "extends") (Token "NAME" "Base")
             [Token "NAME" "Inner"; Token "NAME" "Deep"]
             ["Base"; "Inner"; "Deep"]).
    reflexivity.
Defined.

Lemma func_statement_header_and_body_witness :
  Sample.class_statement 1
    (Tree "func_def"
       [Tree "func_header" [Token "NAME" "foo"; Tree "func_args" [] 1 1] 1 1;
        Tree "pass_stmt" [] 2 2] 1 2) ""
  = Ok ([(Some 1, "func foo():")] ++ [(Some 2, (Sample.TAB ++ "pass")%string)],
        2).
Proof.
  apply (proj2 (proj2 (proj2 (proj2 (func_statement_header_and_body
           Sample.Context Sample.indent_string Sample.create_child_context
           Sample.ExpressionContext Sample.mkExpressionContext unit
           Sample.format_block Sample.format_func_statement
           Sample.format_simple_statement Sample.format_var_statement
           Sample.expression_to_str Sample.format_expression
           Sample.format_expression "func_def" 1 2 ""))))
           0
           (Tree "func_header"
              [Token "NAME" "foo"; Tree "func_args" [] 1 1] 1 1)
           [Tree "pass_stmt" [] 2 2]
           [(Some 1, "func foo():")] 1
           [(Some 2, (Sample.TAB ++ "pass")%string)] 2);
    reflexivity.
Defined.

Lemma enum_statement_cases_witness :
  _format_enum_statement Sample.Context Sample.ExpressionContext
    Sample.mkExpressionContext Sample.format_expression
    (Tree "enum_stmt" [Tree "enum_def" [Token "BODY" "{A, B}"] 1 1] 1 1) ""
  = Ok ([(Some 1, "enum {A, B}")], 1).
Proof.
  apply (proj1 (proj2 (enum_statement_cases
           Sample.Context Sample.ExpressionContext
           Sample.mkExpressionContext Sample.format_expression
           "enum_stmt" [] 1 1 ""))
           "enum_def" (Token "BODY" "{A, B}") [] 1 1).
  discriminate.
Defined.
